(** * configure-expect.py: answering the TensorFlow configure wizard

    A shallow embedding of [configure-expect.py].  The script validates a
    set of build options, spawns the interactive [configure] program under
    [pexpect] and answers its prompts in a fixed order.

    Modelling choices.
    - A Python [str] handled by the script itself (a parameter, a path, an
      answer) is a [string] whose characters are read as code points below
      256.  The [bytes] captured from the child are a [string] too, one
      character per byte; [decode('utf-8')] is the strict UTF-8 decoder
      [utf8_decode], which gives a [text], the list of the code points,
      or fails, and then [UnicodeDecodeError] is raised.
    - [print] appends the text it is given to [stdout] (standard output
      is UTF-8, so that every text can be written to it).
    - [os.path.exists], [pexpect.spawn] and the behaviour of the spawned
      child are the fields of the class [Platform]: nothing is assumed on
      them, and a claim holds for every platform unless it says otherwise.
    - Exceptions are the constructors of [exn]; code that may raise lives
      in [result], code that also touches the session in [M].
    - [assert] statements are executed (the interpreter is not run with
      [-O]). *)

From Stdlib Require Import String Ascii List Bool ZArith NArith Lia.
From Stdlib Require Import Floats.PrimFloat.
Import ListNotations.
Local Open Scope string_scope.
Local Open Scope list_scope.

(** ** Python strings *)

(** [str.isspace] on one character with code point below 256. *)
Definition isspace (c : ascii) : bool :=
  let n := nat_of_ascii c in
  (Nat.leb 9 n && Nat.leb n 13) || (Nat.leb 28 n && Nat.leb n 32)
  || Nat.eqb n 133 || Nat.eqb n 160.

Fixpoint lstrip (s : string) : string :=
  match s with
  | EmptyString => EmptyString
  | String c s' => if isspace c then lstrip s' else s
  end.

Fixpoint rstrip (s : string) : string :=
  match s with
  | EmptyString => EmptyString
  | String c s' =>
      match rstrip s' with
      | EmptyString => if isspace c then EmptyString else String c EmptyString
      | r => String c r
      end
  end.

(** [s.strip()] *)
Definition strip (s : string) : string := rstrip (lstrip s).

(** [sep.join(l)] *)
Fixpoint join (sep : string) (l : list string) : string :=
  match l with
  | [] => ""
  | [x] => x
  | x :: l' => x ++ sep ++ join sep l'
  end.

(** [s.startswith(p)] *)
Fixpoint startswith (s p : string) : bool :=
  match p, s with
  | EmptyString, _ => true
  | String a p', String b s' => Ascii.eqb a b && startswith s' p'
  | String _ _, EmptyString => false
  end.

(** Every character of [s] is whitespace. *)
Fixpoint all_space (s : string) : bool :=
  match s with
  | EmptyString => true
  | String c s' => isspace c && all_space s'
  end.

(** The first and the last character of a string, when it has one. *)
Definition first_char (s : string) : option ascii :=
  match s with
  | EmptyString => None
  | String c _ => Some c
  end.

Fixpoint last_char (s : string) : option ascii :=
  match s with
  | EmptyString => None
  | String c EmptyString => Some c
  | String _ s' => last_char s'
  end.

Definition not_space (o : option ascii) : bool :=
  match o with
  | None => true
  | Some c => negb (isspace c)
  end.

(** ** Exceptions and results *)

Inductive exn : Type :=
| AssertionError (msg : string)
| NotImplementedError (msg : string)
| TypeError (msg : string)
| AttributeError (msg : string)
| ExceptionPexpect (msg : string)
| TIMEOUT
| EOF
| UnicodeDecodeError (encoding : string) (object : string).

Inductive result (A : Type) : Type :=
| Ok (a : A)
| Raise (e : exn).
Arguments Ok {A} a.
Arguments Raise {A} e.

Definition rbind {A B} (r : result A) (k : A -> result B) : result B :=
  match r with
  | Ok a => k a
  | Raise e => Raise e
  end.

(** [assert cond, msg] *)
Definition assert_ (cond : bool) (msg : string) : result unit :=
  if cond then Ok tt else Raise (AssertionError msg).

Declare Scope result_scope.
Delimit Scope result_scope with result.
Notation "x <- r ;; k" := (rbind r (fun x => k))
  (at level 61, r at next level, right associativity) : result_scope.
Notation "r ;; k" := (rbind r (fun _ => k))
  (at level 61, right associativity) : result_scope.

(** ** bytes.decode('utf-8') *)

(** A decoded text: its code points. *)
Definition text : Type := list N.

(** The byte [c] lies between [lo] and [hi]. *)
Definition byte_in (lo hi : N) (c : ascii) : bool :=
  N.leb lo (N_of_ascii c) && N.leb (N_of_ascii c) hi.

(** The six payload bits of a continuation byte. *)
Definition payload (c : ascii) : N := (N_of_ascii c - 128)%N.

(** What may follow the lead byte [b0] of a sequence of three or four
    bytes: the ranges that leave out the encodings that are too long, the
    surrogates and the code points above 10FFFF. *)
Definition second_byte (b0 : N) (c : ascii) : bool :=
  if N.eqb b0 224 then byte_in 160 191 c
  else if N.eqb b0 237 then byte_in 128 159 c
  else if N.eqb b0 240 then byte_in 144 191 c
  else if N.eqb b0 244 then byte_in 128 143 c
  else byte_in 128 191 c.

(** The strict UTF-8 decoder: [None] where Python raises. *)
Fixpoint utf8_decode (s : string) : option text :=
  match s with
  | EmptyString => Some []
  | String c0 s1 =>
      let b0 := N_of_ascii c0 in
      if N.ltb b0 128 then
        option_map (cons b0) (utf8_decode s1)
      else if byte_in 194 223 c0 then
        match s1 with
        | String c1 s2 =>
            if byte_in 128 191 c1 then
              option_map (cons ((b0 - 192) * 64 + payload c1)%N)
                (utf8_decode s2)
            else None
        | _ => None
        end
      else if byte_in 224 239 c0 then
        match s1 with
        | String c1 (String c2 s3) =>
            if second_byte b0 c1 && byte_in 128 191 c2 then
              option_map
                (cons ((b0 - 224) * 4096 + payload c1 * 64 + payload c2)%N)
                (utf8_decode s3)
            else None
        | _ => None
        end
      else if byte_in 240 244 c0 then
        match s1 with
        | String c1 (String c2 (String c3 s4)) =>
            if second_byte b0 c1 && byte_in 128 191 c2 && byte_in 128 191 c3
            then
              option_map
                (cons ((b0 - 240) * 262144 + payload c1 * 4096
                       + payload c2 * 64 + payload c3)%N)
                (utf8_decode s4)
            else None
        | _ => None
        end
      else None
  end.

(** [b.decode('utf-8')] on captured bytes. *)
Definition bytes_decode (b : string) : result text :=
  match utf8_decode b with
  | Some t => Ok t
  | None => Raise (UnicodeDecodeError "utf-8" b)
  end.

(** ** Python values handed to [bool_y_n] *)

(** Booleans, integers, floats, strings and [None].  The script itself
    only hands booleans to [bool_y_n]; the other values are those a caller
    of the class may pass. *)
Inductive pyval : Type :=
| PyBool (b : bool)
| PyInt (z : Z)
| PyFloat (f : float)
| PyStr (s : string)
| PyNone.

(** [v == b] for a boolean [b]: a boolean is the integer 1 or 0 in a
    comparison, so [True == 1], [False == 0], [True == 1.0] and
    [False == 0.0] hold; floats are compared as IEEE 754 does, so -0.0
    equals [False] and a NaN equals nothing. *)
Definition py_eq_bool (v : pyval) (b : bool) : bool :=
  match v with
  | PyBool b' => Bool.eqb b' b
  | PyInt z => Z.eqb z (if b then 1 else 0)%Z
  | PyFloat f => PrimFloat.eqb f (if b then 1 else 0)%float
  | PyStr _ | PyNone => false
  end.

(** [x in l] for a list of booleans. *)
Definition py_in (v : pyval) (l : list bool) : bool :=
  existsb (py_eq_bool v) l.

(** The truth value of [v] in a condition. *)
Definition truthy (v : pyval) : bool :=
  match v with
  | PyBool b => b
  | PyInt z => negb (Z.eqb z 0)
  | PyFloat f => negb (PrimFloat.eqb f 0%float)
  | PyStr s => negb (String.eqb s "")
  | PyNone => false
  end.

(** ** class bool_y_n *)

Module bool_y_n.

Record t : Type := { value : pyval }.

Definition __init__ (value : pyval) : result t :=
  (assert_ (py_in value [true; false])
     "bool_y_n __init__ only supports True or False" ;;
   Ok {| value := value |})%result.

Definition __bool__ (self : t) : bool :=
  if truthy (value self) then true else false.

Definition __repr__ (self : t) : string :=
  if truthy (value self) then "Y" else "N".

Definition __str__ : t -> string := __repr__.

(** The bytes of [__str__]; a string stands for its own encoding. *)
Definition encode (self : t) (encoding : string) : string :=
  __str__ self.

End bool_y_n.

(** ** The platform: filesystem and child process *)

(** What [expect] waits for: a regular expression, kept as its source
    text, or [pexpect.EOF]. *)
Inductive pattern : Type :=
| Re (regex : string)
| PEOF.

(** What one [expect] call observes within the timeout.  [Matched b a c]:
    the pattern matched, [b] is the output before the match and [a] the
    matched text (end of stream itself when waiting for [PEOF]);
    [TimedOut] and [Ended]: no match before the timeout, respectively
    before the child closed its output. *)
Inductive outcome (child : Type) : Type :=
| Matched (before after : string) (c : child)
| TimedOut (before : string) (c : child)
| Ended (before : string) (c : child).
Arguments Matched {child} before after c.
Arguments TimedOut {child} before c.
Arguments Ended {child} before c.

Class Platform : Type := {
  (** [os.path.exists] *)
  path_exists : string -> bool;
  (** the states of a spawned child *)
  child : Type;
  (** [pexpect.spawn(command)]; [None] when the command cannot be run *)
  spawn_child : string -> option child;
  child_expect : child -> pattern -> outcome child;
  child_sendline : child -> string -> child
}.

Inductive after_val : Type :=
| AfterBytes (s : string)
| AfterEOF
| AfterTIMEOUT.

(** The [pexpect.spawn] handle stored in [self.script]. *)
Record spawn `{Platform} : Type := {
  proc : child;
  timeout : Z;
  before : option string;
  after : option after_val;
  closed : bool
}.

(** What the driver does to the outside, in order. *)
Inductive event : Type :=
| EvSpawn (command : string)
| EvExpect (q : pattern)
| EvSendline (line : string).

Record state `{Platform} : Type := {
  script : option spawn;
  stdout : list text;
  io : list event
}.

(** What [_pexpect_line_answer] is given as answer. *)
Inductive answer : Type :=
| AStr (s : string)
| AYN (b : bool_y_n.t).

Definition answer_line (a : answer) : string :=
  match a with
  | AStr s => s
  | AYN b => bool_y_n.encode b "utf-8"
  end.

(** The keyword arguments of [PexpectTensorFlowConfigure.__init__]. *)
Module params.

Record t : Type := {
  command : string;
  python_version : string;
  with_jemalloc : bool;
  with_google_cloud_platform : bool;
  with_hdfs : bool;
  with_amazon_s3 : bool;
  with_kafka : bool;
  with_xla_jit : bool;
  with_gdr : bool;
  with_verbs : bool;
  with_opencl_sycl : bool;
  with_cuda : bool;
  with_fresh_clang : bool;
  with_mpi : bool;
  cuda_version : option string;
  cuda_path : option string;
  cuda_cudnn_version : option string;
  cuda_cudnn_path : option string;
  cuda_with_tensorrt : bool;
  cuda_tensorrt_path : option string;
  cuda_nccl_version : option string;
  cuda_capabilities : option (list string);
  cuda_with_clang : bool;
  cuda_gcc_path : option string;
  mpi_path : option string;
  opts_flags : option (list string)
}.

End params.

(** ** The session monad *)

Section Session.
Context `{Platform}.

Definition M (A : Type) : Type := state -> result A * state.

Definition ret {A} (a : A) : M A := fun s => (Ok a, s).

Definition bind {A B} (m : M A) (k : A -> M B) : M B :=
  fun s =>
    match m s with
    | (Ok a, s') => k a s'
    | (Raise e, s') => (Raise e, s')
    end.

Definition raise {A} (e : exn) : M A := fun s => (Raise e, s).

Definition lift {A} (r : result A) : M A := fun s => (r, s).

(** [print(t)] *)
Definition print (t : text) : M unit :=
  fun s => (Ok tt, {| script := script s;
                      stdout := stdout s ++ [t];
                      io := io s |}).

Definition emit (e : event) : M unit :=
  fun s => (Ok tt, {| script := script s;
                      stdout := stdout s;
                      io := io s ++ [e] |}).

(** Reading [self.script.<attribute>]. *)
Definition get_script : M spawn :=
  fun s =>
    match script s with
    | Some h => (Ok h, s)
    | None => (Raise (AttributeError "'NoneType' object has no attribute"), s)
    end.

Definition set_script (h : spawn) : M unit :=
  fun s => (Ok tt, {| script := Some h; stdout := stdout s; io := io s |}).

(** [after.decode('utf-8')]: only captured bytes can be decoded, the
    classes [pexpect.EOF] and [pexpect.TIMEOUT] have no such method. *)
Definition decode (a : after_val) : result text :=
  match a with
  | AfterBytes s => bytes_decode s
  | AfterEOF | AfterTIMEOUT =>
      Raise (AttributeError "type object has no attribute 'decode'")
  end.

End Session.

Declare Scope session_scope.
Delimit Scope session_scope with session.
Notation "x <- m ;; k" := (bind m (fun x => k))
  (at level 61, m at next level, right associativity) : session_scope.
Notation "m ;; k" := (bind m (fun _ => k))
  (at level 61, right associativity) : session_scope.

(** ** pexpect.spawn *)

Module pexpect.

Section Spawn.
Context `{Platform}.
Local Open Scope session_scope.

(** [self.script = pexpect.spawn(command)] *)
Definition spawn_ (command : string) : M unit :=
  match spawn_child command with
  | Some c =>
      emit (EvSpawn command) ;;
      set_script {| proc := c; timeout := 30; before := None;
                    after := None; closed := false |}
  | None =>
      raise (ExceptionPexpect "The command was not found or was not executable")
  end.

(** [self.script.timeout = t] *)
Definition set_timeout (t : Z) : M unit :=
  h <- get_script ;;
  set_script {| proc := proc h; timeout := t; before := before h;
                after := after h; closed := closed h |}.

(** [self.script.expect(question)] *)
Definition expect (question : pattern) : M unit :=
  h <- get_script ;;
  emit (EvExpect question) ;;
  match child_expect (proc h) question with
  | Matched b a c =>
      set_script {| proc := c; timeout := timeout h; before := Some b;
                    after := Some (match question with
                                   | Re _ => AfterBytes a
                                   | PEOF => AfterEOF
                                   end);
                    closed := closed h |}
  | TimedOut b c =>
      set_script {| proc := c; timeout := timeout h; before := Some b;
                    after := Some AfterTIMEOUT; closed := closed h |} ;;
      raise TIMEOUT
  | Ended b c =>
      set_script {| proc := c; timeout := timeout h; before := Some b;
                    after := Some AfterEOF; closed := closed h |} ;;
      raise EOF
  end.

(** [self.script.sendline(answer)] *)
Definition sendline (a : answer) : M unit :=
  h <- get_script ;;
  emit (EvSendline (answer_line a)) ;;
  set_script {| proc := child_sendline (proc h) (answer_line a);
                timeout := timeout h; before := before h;
                after := after h; closed := closed h |}.

(** [self.script.close()].  The script has no call to it; it is here to
    say what releasing the handle means. *)
Definition close : M unit :=
  h <- get_script ;;
  set_script {| proc := proc h; timeout := timeout h; before := before h;
                after := after h; closed := true |}.

End Spawn.
End pexpect.

(** ** class PexpectTensorFlowConfigure *)

Module PexpectTensorFlowConfigure.

(** The attributes set by [__init__], apart from [self.script], which
    lives in the session. *)
Record t : Type := {
  command : string;
  python_version : string;
  with_jemalloc : bool_y_n.t;
  with_google_cloud_platform : bool_y_n.t;
  with_hdfs : bool_y_n.t;
  with_amazon_s3 : bool_y_n.t;
  with_kafka : bool_y_n.t;
  with_xla_jit : bool_y_n.t;
  with_gdr : bool_y_n.t;
  with_verbs : bool_y_n.t;
  with_opencl_sycl : bool_y_n.t;
  with_cuda : bool_y_n.t;
  with_fresh_clang : bool_y_n.t;
  with_mpi : bool_y_n.t;
  cuda_version : option string;
  cuda_path : option string;
  cuda_cudnn_version : option string;
  cuda_cudnn_path : option string;
  cuda_with_tensorrt : bool_y_n.t;
  cuda_tensorrt_path : option string;
  cuda_nccl_version : option string;
  cuda_capabilities : option (list string);
  cuda_with_clang : bool_y_n.t;
  cuda_gcc_path : option string;
  mpi_path : option string;
  opts_flags : option (list string)
}.

Section Methods.
Context `{Platform}.

(** [x is not None] *)
Definition is_not_None {A} (x : option A) : bool :=
  match x with
  | Some _ => true
  | None => false
  end.

(** [os.path.exists(p)] on an optional path. *)
Definition os_path_exists (p : option string) : result bool :=
  match p with
  | Some p => Ok (path_exists p)
  | None => Raise (TypeError "stat: path should be string, bytes, os.PathLike or integer, not NoneType")
  end.

Definition __init__ (a : params.t) : result t :=
  (assert_ (path_exists (params.command a))
     "command must be a valid path to TensorFlow configure script" ;;

   (if params.with_opencl_sycl a
    then Raise (NotImplementedError "with_opencl_sycl=True is not implemented")
    else Ok tt) ;;

   (if params.cuda_with_clang a
    then Raise (NotImplementedError "cuda_with_clang=True is not implemented")
    else Ok tt) ;;

   (if params.with_cuda a then
      assert_ (is_not_None (params.cuda_version a))
        "cuda_version must be set if with_cuda=True" ;;
      assert_ (is_not_None (params.cuda_path a))
        "cuda_path must be set if with_cuda=True" ;;
      assert_ (is_not_None (params.cuda_cudnn_version a))
        "cuda_cudnn_version must be set if with_cuda=True" ;;
      assert_ (is_not_None (params.cuda_cudnn_path a))
        "cuda_cudnn_path must be set if with_cuda=True" ;;
      assert_ (is_not_None (params.cuda_nccl_version a))
        "cuda_nccl_version must be set if with_cuda=True" ;;
      assert_ (is_not_None (params.cuda_capabilities a))
        "cuda_capabilities must be set if with_cuda=True" ;;
      assert_ (is_not_None (params.cuda_gcc_path a))
        "cuda_gcc_path must be set if with_cuda=True" ;;

      e <- os_path_exists (params.cuda_path a) ;;
      assert_ e "cuda_path is set a non existing folder" ;;
      e <- os_path_exists (params.cuda_cudnn_path a) ;;
      assert_ e "cuda_cudnn_path is set a non existing folder" ;;

      (if negb (params.cuda_with_clang a) then
         assert_ (is_not_None (params.cuda_gcc_path a))
           "cuda_gcc_path must be set if cuda_with_clang=True" ;;
         e <- os_path_exists (params.cuda_gcc_path a) ;;
         assert_ e "cuda_gcc_path is set a non existing file"
       else Ok tt) ;;

      (if params.cuda_with_tensorrt a then
         assert_ (is_not_None (params.cuda_tensorrt_path a))
           "cuda_tensorrt_path must be set if cuda_with_tensorrt=True" ;;
         e <- os_path_exists (params.cuda_tensorrt_path a) ;;
         assert_ e "cuda_tensorrt_path is set a non existing folder"
       else Ok tt)
    else Ok tt) ;;

   (if params.with_mpi a then
      assert_ (is_not_None (params.mpi_path a))
        "mpi_path must be set if with_mpi=True" ;;
      e <- os_path_exists (params.mpi_path a) ;;
      assert_ e "mpi_path is set a non existing folder"
    else Ok tt) ;;

   with_jemalloc' <- bool_y_n.__init__ (PyBool (params.with_jemalloc a)) ;;
   with_google_cloud_platform' <-
     bool_y_n.__init__ (PyBool (params.with_google_cloud_platform a)) ;;
   with_hdfs' <- bool_y_n.__init__ (PyBool (params.with_hdfs a)) ;;
   with_amazon_s3' <- bool_y_n.__init__ (PyBool (params.with_amazon_s3 a)) ;;
   with_kafka' <- bool_y_n.__init__ (PyBool (params.with_kafka a)) ;;
   with_xla_jit' <- bool_y_n.__init__ (PyBool (params.with_xla_jit a)) ;;
   with_gdr' <- bool_y_n.__init__ (PyBool (params.with_gdr a)) ;;
   with_verbs' <- bool_y_n.__init__ (PyBool (params.with_verbs a)) ;;
   with_opencl_sycl' <-
     bool_y_n.__init__ (PyBool (params.with_opencl_sycl a)) ;;
   with_cuda' <- bool_y_n.__init__ (PyBool (params.with_cuda a)) ;;
   with_fresh_clang' <-
     bool_y_n.__init__ (PyBool (params.with_fresh_clang a)) ;;
   with_mpi' <- bool_y_n.__init__ (PyBool (params.with_mpi a)) ;;
   cuda_with_tensorrt' <-
     bool_y_n.__init__ (PyBool (params.cuda_with_tensorrt a)) ;;
   cuda_with_clang' <-
     bool_y_n.__init__ (PyBool (params.cuda_with_clang a)) ;;
   Ok {| command := params.command a;
         python_version := params.python_version a;
         with_jemalloc := with_jemalloc';
         with_google_cloud_platform := with_google_cloud_platform';
         with_hdfs := with_hdfs';
         with_amazon_s3 := with_amazon_s3';
         with_kafka := with_kafka';
         with_xla_jit := with_xla_jit';
         with_gdr := with_gdr';
         with_verbs := with_verbs';
         with_opencl_sycl := with_opencl_sycl';
         with_cuda := with_cuda';
         with_fresh_clang := with_fresh_clang';
         with_mpi := with_mpi';
         cuda_version := params.cuda_version a;
         cuda_path := params.cuda_path a;
         cuda_cudnn_version := params.cuda_cudnn_version a;
         cuda_cudnn_path := params.cuda_cudnn_path a;
         cuda_with_tensorrt := cuda_with_tensorrt';
         cuda_tensorrt_path := params.cuda_tensorrt_path a;
         cuda_nccl_version := params.cuda_nccl_version a;
         cuda_capabilities := params.cuda_capabilities a;
         cuda_with_clang := cuda_with_clang';
         cuda_gcc_path := params.cuda_gcc_path a;
         mpi_path := params.mpi_path a;
         opts_flags := params.opts_flags a |})%result.

(** Returns /usr/bin/python$VER *)
Definition python_bin_path (self : t) : result string :=
  (let python_bin_path := ("/usr/bin/python" ++ python_version self)%string in
   assert_ (path_exists python_bin_path)
     (python_bin_path ++ " does not exist")%string ;;
   Ok python_bin_path)%result.

(** Returns /usr/lib/python3/dist-packages, or
    /usr/lib/python$VER/dist-packages for Python 2 *)
Definition python_dist_path (self : t) : result string :=
  (let python_dist_path :=
     if startswith (python_version self) "2."
     then ("/usr/lib/python" ++ python_version self ++ "/dist-packages")%string
     else "/usr/lib/python3/dist-packages" in
   assert_ (path_exists python_dist_path)
     (python_dist_path ++ " does not exist")%string ;;
   Ok python_dist_path)%result.

(** Return opts flags space separated or empty string if None *)
Definition opts_flags_str (self : t) : string :=
  match opts_flags self with
  | None => ""
  | Some l => join " " (map strip l)
  end.

(** Return comma separated CUDA capabilities *)
Definition cuda_capabilities_str (self : t) : result string :=
  match cuda_capabilities self with
  | Some l => Ok (join "," (map strip l))
  | None => Raise (TypeError "'NoneType' object is not iterable")
  end.

Local Open Scope session_scope.

(** Expect a pattern and provide answer (also display output) *)
Definition _pexpect_line_answer (question : pattern) (answer : option answer)
  : M unit :=
  h <- get_script ;;
  match after h with
  | Some a => t <- lift (decode a) ;; print t
  | None => ret tt
  end ;;
  pexpect.expect question ;;
  match answer with
  | Some a => pexpect.sendline a
  | None => ret tt
  end ;;
  h <- get_script ;;
  match before h with
  | Some b => t <- lift (bytes_decode b) ;; print t
  | None => ret tt
  end.

(** An optional string attribute, passed as answer: [None] stays [None]
    and nothing is sent. *)
Definition str (o : option string) : option answer := option_map AStr o.

(** A yes/no attribute, passed as answer. *)
Definition y_n (b : bool_y_n.t) : option answer := Some (AYN b).

(** Run expect against TF configure script and provide answers *)
Definition run (self : t) : M unit :=
  pexpect.spawn_ (command self) ;;
  pexpect.set_timeout 2 ;;

  a <- lift (python_bin_path self) ;;
  _pexpect_line_answer (Re "Please specify the location of python\..*") (Some (AStr a)) ;;
  a <- lift (python_dist_path self) ;;
  _pexpect_line_answer (Re "Please input the desired Python library path to use\..*") (Some (AStr a)) ;;
  _pexpect_line_answer (Re "Do you wish to build TensorFlow with jemalloc as malloc support?.*") (y_n (with_jemalloc self)) ;;
  _pexpect_line_answer (Re "Do you wish to build TensorFlow with Google Cloud Platform support?.*") (y_n (with_google_cloud_platform self)) ;;
  _pexpect_line_answer (Re "Do you wish to build TensorFlow with Hadoop File System support?.*") (y_n (with_hdfs self)) ;;
  _pexpect_line_answer (Re "Do you wish to build TensorFlow with Amazon S3 File System support?.*") (y_n (with_amazon_s3 self)) ;;
  _pexpect_line_answer (Re "Do you wish to build TensorFlow with Apache Kafka Platform support?.*") (y_n (with_kafka self)) ;;
  _pexpect_line_answer (Re "Do you wish to build TensorFlow with XLA JIT support?.*") (y_n (with_xla_jit self)) ;;
  _pexpect_line_answer (Re "Do you wish to build TensorFlow with GDR support?.*") (y_n (with_gdr self)) ;;
  _pexpect_line_answer (Re "Do you wish to build TensorFlow with VERBS support?.*") (y_n (with_verbs self)) ;;
  _pexpect_line_answer (Re "Do you wish to build TensorFlow with OpenCL SYCL support?.*") (y_n (with_opencl_sycl self)) ;;
  _pexpect_line_answer (Re "Do you wish to build TensorFlow with CUDA support?.*") (y_n (with_cuda self)) ;;

  (* CUDA *)
  (if bool_y_n.__bool__ (with_cuda self) then
     _pexpect_line_answer (Re "Please specify the CUDA SDK version you want to use.*") (str (cuda_version self)) ;;
     _pexpect_line_answer (Re "Please specify the location where CUDA .* toolkit is installed\..*") (str (cuda_path self)) ;;
     _pexpect_line_answer (Re "Please specify the cuDNN version you want to use\..*") (str (cuda_cudnn_version self)) ;;
     _pexpect_line_answer (Re "Please specify the location where cuDNN .* library is installed\..*") (str (cuda_cudnn_path self)) ;;
     _pexpect_line_answer (Re "Do you wish to build TensorFlow with TensorRT support?.*") (y_n (cuda_with_tensorrt self)) ;;

     (* CUDA TensorRT *)
     (if bool_y_n.__bool__ (cuda_with_tensorrt self) then
        _pexpect_line_answer (Re "Please specify the location where TensorRT is installed\..*") (str (cuda_tensorrt_path self))
      else ret tt) ;;

     _pexpect_line_answer (Re "Please specify the NCCL version you want to use\..*") (str (cuda_nccl_version self)) ;;
     a <- lift (cuda_capabilities_str self) ;;
     _pexpect_line_answer (Re "Please specify a list of comma-separated Cuda compute capabilities you want to build with\..*") (Some (AStr a)) ;;

     _pexpect_line_answer (Re "Do you want to use clang as CUDA compiler?.*") (y_n (cuda_with_clang self)) ;;

     (* CUDA use Clang *)
     (if bool_y_n.__bool__ (cuda_with_clang self) then
        raise (NotImplementedError "cuda_with_clang=True is not implemented")
      else
        _pexpect_line_answer (Re "Please specify which gcc should be used by nvcc as the host compiler\..*") (str (cuda_gcc_path self)))
   else
     (* Is not prompted in CUDA mode *)
     _pexpect_line_answer (Re "Do you wish to download a fresh release of clang?.*") (y_n (with_fresh_clang self))) ;;

  (* MPI *)
  _pexpect_line_answer (Re "Do you wish to build TensorFlow with MPI support?.*") (y_n (with_mpi self)) ;;
  (if bool_y_n.__bool__ (with_mpi self) then
     _pexpect_line_answer (Re "Please specify the MPI toolkit folder\..*") (str (mpi_path self))
   else ret tt) ;;

  _pexpect_line_answer (Re "Please specify optimization flags to use during compilation when bazel option.*") (Some (AStr (opts_flags_str self))) ;;
  _pexpect_line_answer (Re "Would you like to interactively configure \./WORKSPACE for Android builds?.*") (Some (AStr "N")) ;;
  _pexpect_line_answer (Re "Configuration finished") None ;;
  _pexpect_line_answer PEOF None.

(** The block under [if __name__ == '__main__'], from the parsed
    arguments on. *)
Definition main (config : params.t) : M unit :=
  expect_ <- lift (__init__ config) ;;
  run expect_.

End Methods.
End PexpectTensorFlowConfigure.

(** ** The command line *)

(** What [command_line_args] returns: one attribute per [add_argument],
    named after its option.  A [store_true] option is a boolean, an option
    of type [str] is [None] when absent, and so is one with [nargs='+'].
    The parsing of [sys.argv] itself is argparse's and is not modelled. *)
Module namespace.

Record t : Type := {
  command : string;
  python_version : string;
  with_jemalloc : bool;
  with_google_cloud_platform : bool;
  with_hdfs : bool;
  with_amazon_s3 : bool;
  with_kafka : bool;
  with_xla_jit : bool;
  with_gdr : bool;
  with_opencl_sycl : bool;
  with_cuda : bool;
  with_fresh_clang : bool;
  with_mpi : bool;
  cuda_version : option string;
  cuda_path : option string;
  cuda_cudnn_version : option string;
  cuda_cudnn_path : option string;
  cuda_with_tensorrt : bool;
  cuda_tensorrt_path : option string;
  cuda_nccl_version : option string;
  cuda_capabilities : option (list string);
  cuda_with_clang : bool;
  cuda_gcc_path : option string;
  mpi_path : option string;
  opts_flags : option (list string)
}.

End namespace.

(** [**vars(CONFIG)]: the attributes of the namespace as keyword
    arguments; a parameter of [__init__] without attribute takes its
    default. *)
Definition kwargs (config : namespace.t) : params.t :=
  {| params.command := namespace.command config;
     params.python_version := namespace.python_version config;
     params.with_jemalloc := namespace.with_jemalloc config;
     params.with_google_cloud_platform :=
       namespace.with_google_cloud_platform config;
     params.with_hdfs := namespace.with_hdfs config;
     params.with_amazon_s3 := namespace.with_amazon_s3 config;
     params.with_kafka := namespace.with_kafka config;
     params.with_xla_jit := namespace.with_xla_jit config;
     params.with_gdr := namespace.with_gdr config;
     params.with_verbs := false;
     params.with_opencl_sycl := namespace.with_opencl_sycl config;
     params.with_cuda := namespace.with_cuda config;
     params.with_fresh_clang := namespace.with_fresh_clang config;
     params.with_mpi := namespace.with_mpi config;
     params.cuda_version := namespace.cuda_version config;
     params.cuda_path := namespace.cuda_path config;
     params.cuda_cudnn_version := namespace.cuda_cudnn_version config;
     params.cuda_cudnn_path := namespace.cuda_cudnn_path config;
     params.cuda_with_tensorrt := namespace.cuda_with_tensorrt config;
     params.cuda_tensorrt_path := namespace.cuda_tensorrt_path config;
     params.cuda_nccl_version := namespace.cuda_nccl_version config;
     params.cuda_capabilities := namespace.cuda_capabilities config;
     params.cuda_with_clang := namespace.cuda_with_clang config;
     params.cuda_gcc_path := namespace.cuda_gcc_path config;
     params.mpi_path := namespace.mpi_path config;
     params.opts_flags := namespace.opts_flags config |}.

(** The block under [if __name__ == '__main__'], from the namespace on. *)
Definition cli `{Platform} (config : namespace.t) : M unit :=
  PexpectTensorFlowConfigure.main (kwargs config).

(** * Definitions used to state the properties *)

Import PexpectTensorFlowConfigure.

(** ** What [__init__] builds and when *)

Definition wrap_bool (b : bool) : bool_y_n.t :=
  {| bool_y_n.value := PyBool b |}.

(** The object [__init__] returns when it returns. *)
Definition built (a : params.t) : t :=
  {| command := params.command a;
     python_version := params.python_version a;
     with_jemalloc := wrap_bool (params.with_jemalloc a);
     with_google_cloud_platform :=
       wrap_bool (params.with_google_cloud_platform a);
     with_hdfs := wrap_bool (params.with_hdfs a);
     with_amazon_s3 := wrap_bool (params.with_amazon_s3 a);
     with_kafka := wrap_bool (params.with_kafka a);
     with_xla_jit := wrap_bool (params.with_xla_jit a);
     with_gdr := wrap_bool (params.with_gdr a);
     with_verbs := wrap_bool (params.with_verbs a);
     with_opencl_sycl := wrap_bool (params.with_opencl_sycl a);
     with_cuda := wrap_bool (params.with_cuda a);
     with_fresh_clang := wrap_bool (params.with_fresh_clang a);
     with_mpi := wrap_bool (params.with_mpi a);
     cuda_version := params.cuda_version a;
     cuda_path := params.cuda_path a;
     cuda_cudnn_version := params.cuda_cudnn_version a;
     cuda_cudnn_path := params.cuda_cudnn_path a;
     cuda_with_tensorrt := wrap_bool (params.cuda_with_tensorrt a);
     cuda_tensorrt_path := params.cuda_tensorrt_path a;
     cuda_nccl_version := params.cuda_nccl_version a;
     cuda_capabilities := params.cuda_capabilities a;
     cuda_with_clang := wrap_bool (params.cuda_with_clang a);
     cuda_gcc_path := params.cuda_gcc_path a;
     mpi_path := params.mpi_path a;
     opts_flags := params.opts_flags a |}.

Definition is_None {A} (o : option A) : bool :=
  match o with
  | None => true
  | Some _ => false
  end.

(** The GPU parameters [__init__] looks at when [with_cuda] is set. *)
Inductive gpu_field : Type :=
| F_cuda_version
| F_cuda_path
| F_cuda_cudnn_version
| F_cuda_cudnn_path
| F_cuda_nccl_version
| F_cuda_capabilities
| F_cuda_gcc_path
| F_cuda_tensorrt_path.

Definition field_name (f : gpu_field) : string :=
  match f with
  | F_cuda_version => "cuda_version"
  | F_cuda_path => "cuda_path"
  | F_cuda_cudnn_version => "cuda_cudnn_version"
  | F_cuda_cudnn_path => "cuda_cudnn_path"
  | F_cuda_nccl_version => "cuda_nccl_version"
  | F_cuda_capabilities => "cuda_capabilities"
  | F_cuda_gcc_path => "cuda_gcc_path"
  | F_cuda_tensorrt_path => "cuda_tensorrt_path"
  end.

(** The TensorRT path is looked at only when TensorRT is requested. *)
Definition required (a : params.t) (f : gpu_field) : bool :=
  match f with
  | F_cuda_tensorrt_path => params.cuda_with_tensorrt a
  | _ => true
  end.

(** [y] is [x] without its leading and trailing whitespace. *)
Definition trim_of (x y : string) : Prop :=
  exists l r : string,
    x = (l ++ y ++ r)%string /\ all_space l = true /\ all_space r = true /\
    not_space (first_char y) = true /\ not_space (last_char y) = true.

(** The path [python_dist_path] answers with. *)
Definition dist_packages (version : string) : string :=
  if startswith version "2."
  then "/usr/lib/python" ++ version ++ "/dist-packages"
  else "/usr/lib/python3/dist-packages".

(** ** The prompts and their order (section 4.3 of the specification) *)

Definition q_python_bin := Re "Please specify the location of python\..*".
Definition q_python_lib :=
  Re "Please input the desired Python library path to use\..*".
Definition q_jemalloc :=
  Re "Do you wish to build TensorFlow with jemalloc as malloc support?.*".
Definition q_gcp :=
  Re "Do you wish to build TensorFlow with Google Cloud Platform support?.*".
Definition q_hdfs :=
  Re "Do you wish to build TensorFlow with Hadoop File System support?.*".
Definition q_s3 :=
  Re "Do you wish to build TensorFlow with Amazon S3 File System support?.*".
Definition q_kafka :=
  Re "Do you wish to build TensorFlow with Apache Kafka Platform support?.*".
Definition q_xla :=
  Re "Do you wish to build TensorFlow with XLA JIT support?.*".
Definition q_gdr := Re "Do you wish to build TensorFlow with GDR support?.*".
Definition q_verbs :=
  Re "Do you wish to build TensorFlow with VERBS support?.*".
Definition q_sycl :=
  Re "Do you wish to build TensorFlow with OpenCL SYCL support?.*".
Definition q_cuda := Re "Do you wish to build TensorFlow with CUDA support?.*".
Definition q_cuda_version :=
  Re "Please specify the CUDA SDK version you want to use.*".
Definition q_cuda_path :=
  Re "Please specify the location where CUDA .* toolkit is installed\..*".
Definition q_cudnn_version :=
  Re "Please specify the cuDNN version you want to use\..*".
Definition q_cudnn_path :=
  Re "Please specify the location where cuDNN .* library is installed\..*".
Definition q_tensorrt :=
  Re "Do you wish to build TensorFlow with TensorRT support?.*".
Definition q_tensorrt_path :=
  Re "Please specify the location where TensorRT is installed\..*".
Definition q_nccl := Re "Please specify the NCCL version you want to use\..*".
Definition q_capabilities :=
  Re "Please specify a list of comma-separated Cuda compute capabilities you want to build with\..*".
Definition q_clang := Re "Do you want to use clang as CUDA compiler?.*".
Definition q_gcc :=
  Re "Please specify which gcc should be used by nvcc as the host compiler\..*".
Definition q_fresh_clang :=
  Re "Do you wish to download a fresh release of clang?.*".
Definition q_mpi := Re "Do you wish to build TensorFlow with MPI support?.*".
Definition q_mpi_path := Re "Please specify the MPI toolkit folder\..*".
Definition q_opts :=
  Re "Please specify optimization flags to use during compilation when bazel option.*".
Definition q_android :=
  Re "Would you like to interactively configure \./WORKSPACE for Android builds?.*".
Definition q_finished := Re "Configuration finished".

(** The prompts of a complete run, from the three flags that open or
    skip a branch. *)
Definition prompts (cuda tensorrt mpi : bool) : list pattern :=
  [q_python_bin; q_python_lib;
   q_jemalloc; q_gcp; q_hdfs; q_s3; q_kafka; q_xla; q_gdr; q_verbs; q_sycl;
   q_cuda]
  ++ (if cuda then
        [q_cuda_version; q_cuda_path; q_cudnn_version; q_cudnn_path;
         q_tensorrt]
        ++ (if tensorrt then [q_tensorrt_path] else [])
        ++ [q_nccl; q_capabilities; q_clang; q_gcc]
      else [q_fresh_clang])
  ++ [q_mpi] ++ (if mpi then [q_mpi_path] else [])
  ++ [q_opts; q_android; q_finished; PEOF].

(** The line written for an answer, if any. *)
Definition sent (ans : option answer) : list event :=
  match ans with
  | Some x => [EvSendline (answer_line x)]
  | None => []
  end.

Definition said (q : pattern) (ans : option answer) : list event :=
  EvExpect q :: sent ans.

(** The events of a complete run of [self]. *)
Definition dialogue (self : t) : list event :=
  [EvSpawn (command self)]
  ++ said q_python_bin (Some (AStr ("/usr/bin/python" ++ python_version self)))
  ++ said q_python_lib (Some (AStr (dist_packages (python_version self))))
  ++ said q_jemalloc (y_n (with_jemalloc self))
  ++ said q_gcp (y_n (with_google_cloud_platform self))
  ++ said q_hdfs (y_n (with_hdfs self))
  ++ said q_s3 (y_n (with_amazon_s3 self))
  ++ said q_kafka (y_n (with_kafka self))
  ++ said q_xla (y_n (with_xla_jit self))
  ++ said q_gdr (y_n (with_gdr self))
  ++ said q_verbs (y_n (with_verbs self))
  ++ said q_sycl (y_n (with_opencl_sycl self))
  ++ said q_cuda (y_n (with_cuda self))
  ++ (if bool_y_n.__bool__ (with_cuda self) then
        said q_cuda_version (str (cuda_version self))
        ++ said q_cuda_path (str (cuda_path self))
        ++ said q_cudnn_version (str (cuda_cudnn_version self))
        ++ said q_cudnn_path (str (cuda_cudnn_path self))
        ++ said q_tensorrt (y_n (cuda_with_tensorrt self))
        ++ (if bool_y_n.__bool__ (cuda_with_tensorrt self)
            then said q_tensorrt_path (str (cuda_tensorrt_path self))
            else [])
        ++ said q_nccl (str (cuda_nccl_version self))
        ++ said q_capabilities
             (option_map (fun l => AStr (join "," (map strip l)))
                (cuda_capabilities self))
        ++ said q_clang (y_n (cuda_with_clang self))
        ++ said q_gcc (str (cuda_gcc_path self))
      else said q_fresh_clang (y_n (with_fresh_clang self)))
  ++ said q_mpi (y_n (with_mpi self))
  ++ (if bool_y_n.__bool__ (with_mpi self)
      then said q_mpi_path (str (mpi_path self))
      else [])
  ++ said q_opts (Some (AStr (opts_flags_str self)))
  ++ said q_android (Some (AStr "N"))
  ++ said q_finished None
  ++ said PEOF None.

(** The patterns waited for, in order. *)
Fixpoint expected (l : list event) : list pattern :=
  match l with
  | [] => []
  | EvExpect q :: l' => q :: expected l'
  | _ :: l' => expected l'
  end.

Definition pattern_eqb (p q : pattern) : bool :=
  match p, q with
  | Re a, Re b => String.eqb a b
  | PEOF, PEOF => true
  | _, _ => false
  end.

Definition event_eqb (e1 e2 : event) : bool :=
  match e1, e2 with
  | EvSpawn a, EvSpawn b => String.eqb a b
  | EvExpect p, EvExpect q => pattern_eqb p q
  | EvSendline a, EvSendline b => String.eqb a b
  | _, _ => false
  end.

(** [l] begins with [nxt]. *)
Fixpoint begins (nxt l : list event) : bool :=
  match nxt, l with
  | [], _ => true
  | x :: nxt', y :: l' => event_eqb x y && begins nxt' l'
  | _ :: _, [] => false
  end.

(** Wherever [l] waits for [q], the events that come next are [nxt]. *)
Fixpoint follows (q : pattern) (nxt l : list event) : bool :=
  match l with
  | [] => true
  | e :: l' =>
      match e with
      | EvExpect q' => if pattern_eqb q' q then begins nxt l' else true
      | _ => true
      end && follows q nxt l'
  end.


(** Wherever the trace waits for the VERBS prompt, either the wait is the
    last event or "N" is sent next. *)
Definition verbs_declined (tr : list event) : Prop :=
  forall pre post, tr = pre ++ EvExpect q_verbs :: post ->
    post = [] \/ exists post', post = EvSendline "N" :: post'.

(** The exceptions a run of a constructed object ends with, when it does
    not complete: a wait that fails, an interpreter path that does not
    exist, a command that cannot be spawned, text of the child that is not
    valid UTF-8. *)
Definition interaction_fault (e : exn) : bool :=
  match e with
  | TIMEOUT | EOF | AssertionError _ | ExceptionPexpect _
  | UnicodeDecodeError _ _ => true
  | NotImplementedError _ | TypeError _ | AttributeError _ => false
  end.

(** No match has left anything yet, or what the last match left has a
    [decode] method: it is captured bytes, not one of the classes
    [pexpect.EOF] and [pexpect.TIMEOUT]. *)
Definition decodable (o : option after_val) : bool :=
  match o with
  | Some AfterEOF | Some AfterTIMEOUT => false
  | _ => true
  end.

(** The bytes [b] are valid UTF-8. *)
Definition decodes (b : string) : bool :=
  match utf8_decode b with
  | Some _ => true
  | None => false
  end.
Arguments decodes : simpl never.

(** What the last match left can be echoed: nothing, or bytes that are
    valid UTF-8. *)
Definition printable (o : option after_val) : bool :=
  match o with
  | None => true
  | Some (AfterBytes a) => decodes a
  | Some AfterEOF | Some AfterTIMEOUT => false
  end.

(** ** The minimal configuration *)

(** No feature is asked for and no optimisation flag is given. *)
Definition minimal (a : params.t) : bool :=
  negb (params.with_jemalloc a)
  && negb (params.with_google_cloud_platform a)
  && negb (params.with_hdfs a)
  && negb (params.with_amazon_s3 a)
  && negb (params.with_kafka a)
  && negb (params.with_xla_jit a)
  && negb (params.with_gdr a)
  && negb (params.with_verbs a)
  && negb (params.with_opencl_sycl a)
  && negb (params.with_cuda a)
  && negb (params.with_fresh_clang a)
  && negb (params.with_mpi a)
  && negb (params.cuda_with_tensorrt a)
  && negb (params.cuda_with_clang a)
  && is_None (params.opts_flags a).

Definition minimal_dialogue (a : params.t) : list event :=
  [EvSpawn (params.command a);
   EvExpect q_python_bin;
   EvSendline ("/usr/bin/python" ++ params.python_version a);
   EvExpect q_python_lib;
   EvSendline (dist_packages (params.python_version a));
   EvExpect q_jemalloc; EvSendline "N";
   EvExpect q_gcp; EvSendline "N";
   EvExpect q_hdfs; EvSendline "N";
   EvExpect q_s3; EvSendline "N";
   EvExpect q_kafka; EvSendline "N";
   EvExpect q_xla; EvSendline "N";
   EvExpect q_gdr; EvSendline "N";
   EvExpect q_verbs; EvSendline "N";
   EvExpect q_sycl; EvSendline "N";
   EvExpect q_cuda; EvSendline "N";
   EvExpect q_fresh_clang; EvSendline "N";
   EvExpect q_mpi; EvSendline "N";
   EvExpect q_opts; EvSendline "";
   EvExpect q_android; EvSendline "N";
   EvExpect q_finished;
   EvExpect PEOF].

(** The first check of a list that does not pass: the parameter it looks
    at and its message. *)
Fixpoint first_failing (l : list (gpu_field * bool * string))
  : option (gpu_field * string) :=
  match l with
  | [] => None
  | (f, ok, msg) :: l' => if ok then first_failing l' else Some (f, msg)
  end.

(** ** Predicates on the platform and on sessions *)

Section Statements.
Context `{Platform}.

(** No session yet: nothing spawned, printed or sent. *)
Definition fresh : state :=
  {| script := None; stdout := []; io := [] |}.

(** The path is given and exists. *)
Definition on_disk (o : option string) : bool :=
  match o with
  | Some p => path_exists p
  | None => false
  end.

(** Rules 4 and 5 of section 4.1. *)
Definition gpu_ok (a : params.t) : bool :=
  is_not_None (params.cuda_version a)
  && is_not_None (params.cuda_path a)
  && is_not_None (params.cuda_cudnn_version a)
  && is_not_None (params.cuda_cudnn_path a)
  && is_not_None (params.cuda_nccl_version a)
  && is_not_None (params.cuda_capabilities a)
  && is_not_None (params.cuda_gcc_path a)
  && on_disk (params.cuda_path a)
  && on_disk (params.cuda_cudnn_path a)
  && on_disk (params.cuda_gcc_path a)
  && (if params.cuda_with_tensorrt a
      then on_disk (params.cuda_tensorrt_path a) else true).

(** Rule 6. *)
Definition mpi_ok (a : params.t) : bool :=
  if params.with_mpi a then on_disk (params.mpi_path a) else true.

(** Rules 1 to 6 together. *)
Definition accepts (a : params.t) : bool :=
  path_exists (params.command a)
  && negb (params.with_opencl_sycl a) && negb (params.cuda_with_clang a)
  && (if params.with_cuda a then gpu_ok a else true)
  && mpi_ok a.

(** What makes [__init__] reject a GPU parameter: a version or the
    capability list that is [None], a path that is [None] or does not
    exist. *)
Definition unusable (a : params.t) (f : gpu_field) : bool :=
  match f with
  | F_cuda_version => is_None (params.cuda_version a)
  | F_cuda_path => negb (on_disk (params.cuda_path a))
  | F_cuda_cudnn_version => is_None (params.cuda_cudnn_version a)
  | F_cuda_cudnn_path => negb (on_disk (params.cuda_cudnn_path a))
  | F_cuda_nccl_version => is_None (params.cuda_nccl_version a)
  | F_cuda_capabilities => is_None (params.cuda_capabilities a)
  | F_cuda_gcc_path => negb (on_disk (params.cuda_gcc_path a))
  | F_cuda_tensorrt_path => negb (on_disk (params.cuda_tensorrt_path a))
  end.

(** The checks of rules 4 and 5 of section 4.1, in their order: the
    parameter looked at, whether it passes, and the message when it does
    not. *)
Definition gpu_checks (a : params.t) : list (gpu_field * bool * string) :=
  [(F_cuda_version, is_not_None (params.cuda_version a),
    "cuda_version must be set if with_cuda=True");
   (F_cuda_path, is_not_None (params.cuda_path a),
    "cuda_path must be set if with_cuda=True");
   (F_cuda_cudnn_version, is_not_None (params.cuda_cudnn_version a),
    "cuda_cudnn_version must be set if with_cuda=True");
   (F_cuda_cudnn_path, is_not_None (params.cuda_cudnn_path a),
    "cuda_cudnn_path must be set if with_cuda=True");
   (F_cuda_nccl_version, is_not_None (params.cuda_nccl_version a),
    "cuda_nccl_version must be set if with_cuda=True");
   (F_cuda_capabilities, is_not_None (params.cuda_capabilities a),
    "cuda_capabilities must be set if with_cuda=True");
   (F_cuda_gcc_path, is_not_None (params.cuda_gcc_path a),
    "cuda_gcc_path must be set if with_cuda=True");
   (F_cuda_path, on_disk (params.cuda_path a),
    "cuda_path is set a non existing folder");
   (F_cuda_cudnn_path, on_disk (params.cuda_cudnn_path a),
    "cuda_cudnn_path is set a non existing folder");
   (F_cuda_gcc_path, on_disk (params.cuda_gcc_path a),
    "cuda_gcc_path is set a non existing file")]
  ++ (if params.cuda_with_tensorrt a then
        [(F_cuda_tensorrt_path, is_not_None (params.cuda_tensorrt_path a),
          "cuda_tensorrt_path must be set if cuda_with_tensorrt=True");
         (F_cuda_tensorrt_path, on_disk (params.cuda_tensorrt_path a),
          "cuda_tensorrt_path is set a non existing folder")]
      else []).

(** The child, taken through the events of [l], shows every prompt that
    is waited for, and the text it writes before and in each prompt is
    valid UTF-8. *)
Fixpoint shows (c : child) (l : list event) : bool :=
  match l with
  | [] => true
  | EvSpawn _ :: l' => shows c l'
  | EvExpect q :: l' =>
      match child_expect c q with
      | Matched b a c' =>
          decodes b
          && (match q with
              | Re _ => decodes a
              | PEOF => true
              end
              && shows c' l')
      | TimedOut _ _ | Ended _ _ => false
      end
  | EvSendline x :: l' => shows (child_sendline c x) l'
  end.

(** The child after the answer, if any, is written to it. *)
Definition child_sent (c : child) (ans : option answer) : child :=
  match ans with
  | Some x => child_sendline c (answer_line x)
  | None => c
  end.

(** [m], started where [P] holds, ends normally where [Q] holds or raises
    [e] where [E e] holds. *)
Definition triple {A} (P : state -> Prop) (m : M A)
    (Q : A -> state -> Prop) (E : exn -> state -> Prop) : Prop :=
  forall s, P s ->
    match m s with
    | (Ok a, s') => Q a s'
    | (Raise e, s') => E e s'
    end.

(** [self.script] holds a handle that has not been closed. *)
Definition handle_open (s : state) : Prop :=
  exists h, script s = Some h /\ closed h = false.

(** [m] leaves an open handle open, however it ends. *)
Definition keeps_open {A} (m : M A) : Prop :=
  triple handle_open m (fun _ => handle_open) (fun _ => handle_open).

(** The handle is open and the events so far are [tr]. *)
Definition halted (tr : list event) (s : state) : Prop :=
  exists h, script s = Some h /\ closed h = false /\ io s = tr.

(** Moreover the child is in state [c] and the last match left [o]. *)
Definition session_at (tr : list event) (c : child) (o : option after_val)
    (s : state) : Prop :=
  exists h, script s = Some h /\ closed h = false /\ io s = tr
            /\ proc h = c /\ after h = o.

(** The child is in state [c] and what the last match left can be
    echoed. *)
Definition ready (tr : list event) (c : child) (s : state) : Prop :=
  exists o, session_at tr c o s /\ printable o = true.

(** The last match, if any, left bytes, and a run that stops here on text
    that is not valid UTF-8 stops as [E] allows. *)
Definition armed (E : exn -> state -> Prop) (tr : list event) (s : state)
  : Prop :=
  exists c o, session_at tr c o s /\ decodable o = true
    /\ (o <> None ->
        forall s0, halted tr s0 ->
        forall b, E (UnicodeDecodeError "utf-8" b) s0).

End Statements.

(** ** Further notions: errors, stops, echo *)

(** The exceptions [__init__] has a statement for, in the order of the
    statements that can raise them.  The second assertion on
    [cuda_gcc_path] (with the message about [cuda_with_clang]) and the
    TypeError of [os.path.exists] on [None] are left out. *)
Definition init_errors : list exn :=
  [AssertionError "command must be a valid path to TensorFlow configure script";
   NotImplementedError "with_opencl_sycl=True is not implemented";
   NotImplementedError "cuda_with_clang=True is not implemented";
   AssertionError "cuda_version must be set if with_cuda=True";
   AssertionError "cuda_path must be set if with_cuda=True";
   AssertionError "cuda_cudnn_version must be set if with_cuda=True";
   AssertionError "cuda_cudnn_path must be set if with_cuda=True";
   AssertionError "cuda_nccl_version must be set if with_cuda=True";
   AssertionError "cuda_capabilities must be set if with_cuda=True";
   AssertionError "cuda_gcc_path must be set if with_cuda=True";
   AssertionError "cuda_path is set a non existing folder";
   AssertionError "cuda_cudnn_path is set a non existing folder";
   AssertionError "cuda_gcc_path is set a non existing file";
   AssertionError "cuda_tensorrt_path must be set if cuda_with_tensorrt=True";
   AssertionError "cuda_tensorrt_path is set a non existing folder";
   AssertionError "mpi_path must be set if with_mpi=True";
   AssertionError "mpi_path is set a non existing folder"].

(** The values [bool_y_n] takes: the booleans, and the integers and the
    floats that are zero or one. *)
Definition boolean_like (v : pyval) : bool :=
  match v with
  | PyBool _ => true
  | PyInt z => Z.eqb z 0 || Z.eqb z 1
  | PyFloat f => PrimFloat.eqb f 0%float || PrimFloat.eqb f 1%float
  | PyStr _ | PyNone => false
  end.

(** The last event is a wait. *)
Definition ends_with_wait (tr : list event) : bool :=
  match rev tr with
  | EvExpect _ :: _ => true
  | _ => false
  end.

(** Where the trace [tr] of a run of a constructed object can end with
    [e], [rest] being what is left of the dialogue: on the wait that
    failed; before the second wait, for an assertion on an interpreter
    path; before anything, when the command cannot be spawned; after a
    wait that matched and the answer to it, for text of the child that is
    not valid UTF-8. *)
Definition stop_shape (e : exn) (tr rest : list event) : bool :=
  match e with
  | TIMEOUT | EOF => ends_with_wait tr
  | AssertionError _ => Nat.leb (List.length (expected tr)) 1
  | ExceptionPexpect _ => match tr with [] => true | _ :: _ => false end
  | UnicodeDecodeError encoding _ =>
      String.eqb encoding "utf-8"
      && Nat.leb 1 (List.length (expected tr))
      && match rest with
         | EvSendline _ :: _ => false
         | _ => true
         end
  | NotImplementedError _ | TypeError _ | AttributeError _ => false
  end.

(** [out] after the text left by the last match, if any, is printed;
    [None] when that text is not valid UTF-8. *)
Definition echoed (o : option after_val) (out : list text)
  : option (list text) :=
  match o with
  | Some (AfterBytes a) => option_map (fun t => out ++ [t]) (utf8_decode a)
  | _ => Some out
  end.

Section MoreStatements.
Context `{Platform}.

(** The events so far are the beginning of the dialogue of [self], and
    they end as [stop_shape] says. *)
Definition stops_within (self : t) (e : exn) (s : state) : Prop :=
  exists rest, dialogue self = io s ++ rest
               /\ stop_shape e (io s) rest = true.

(** [self.script] holds a handle whose timeout is [t]. *)
Definition timeout_is (t : Z) (s : state) : Prop :=
  exists h, script s = Some h /\ timeout h = t.

End MoreStatements.

(** ** Test benches *)

(** A fake child that replays a transcript: it shows the listed prompts in
    order, whatever it is sent, and then closes its output. *)
Definition replay_expect (c : list pattern) (q : pattern)
  : outcome (list pattern) :=
  match c with
  | p :: c' =>
      if pattern_eqb p q then
        Matched "" (match p with Re r => r | PEOF => "" end) c'
      else TimedOut "" c
  | [] =>
      match q with
      | PEOF => Matched "" "" []
      | Re _ => Ended "" []
      end
  end.

Definition replay (exists_ : string -> bool) (transcript : list pattern)
  : Platform :=
  {| path_exists := exists_;
     child := list pattern;
     spawn_child := fun _ => Some transcript;
     child_expect := replay_expect;
     child_sendline := fun c _ => c |}.

(** A disk on which everything exists but what lies under /missing. *)
Definition installed (p : string) : bool := negb (startswith p "/missing").

(** A wizard that asks the questions of the minimal configuration. *)
Definition lab : Platform := replay installed (prompts false false false).

(** A wizard that asks for CUDA, TensorRT and MPI. *)
Definition gpu_lab : Platform := replay installed (prompts true true true).

(** A wizard that exits at once. *)
Definition dead_lab : Platform := replay installed [].




Definition minimal_params : params.t :=
  {| params.command := "./configure";
     params.python_version := "3.6";
     params.with_jemalloc := false;
     params.with_google_cloud_platform := false;
     params.with_hdfs := false;
     params.with_amazon_s3 := false;
     params.with_kafka := false;
     params.with_xla_jit := false;
     params.with_gdr := false;
     params.with_verbs := false;
     params.with_opencl_sycl := false;
     params.with_cuda := false;
     params.with_fresh_clang := false;
     params.with_mpi := false;
     params.cuda_version := None;
     params.cuda_path := None;
     params.cuda_cudnn_version := None;
     params.cuda_cudnn_path := None;
     params.cuda_with_tensorrt := false;
     params.cuda_tensorrt_path := None;
     params.cuda_nccl_version := None;
     params.cuda_capabilities := None;
     params.cuda_with_clang := false;
     params.cuda_gcc_path := None;
     params.mpi_path := None;
     params.opts_flags := None |}.

(** A configuration with every GPU parameter, TensorRT and MPI, in which
    the command, two flags and two GPU parameters can be chosen. *)
Definition gpu_params_with (cmd : string) (sycl cuda : bool)
    (cver dpath : option string) : params.t :=
  {| params.command := cmd;
     params.python_version := "3.6";
     params.with_jemalloc := true;
     params.with_google_cloud_platform := false;
     params.with_hdfs := false;
     params.with_amazon_s3 := false;
     params.with_kafka := false;
     params.with_xla_jit := true;
     params.with_gdr := false;
     params.with_verbs := false;
     params.with_opencl_sycl := sycl;
     params.with_cuda := cuda;
     params.with_fresh_clang := false;
     params.with_mpi := true;
     params.cuda_version := cver;
     params.cuda_path := Some "/usr/local/cuda";
     params.cuda_cudnn_version := Some "7.0";
     params.cuda_cudnn_path := dpath;
     params.cuda_with_tensorrt := true;
     params.cuda_tensorrt_path := Some "/usr/lib/x86_64-linux-gnu";
     params.cuda_nccl_version := Some "1.3";
     params.cuda_capabilities := Some ["3.5"; " 5.2 "];
     params.cuda_with_clang := false;
     params.cuda_gcc_path := Some "/usr/bin/gcc";
     params.mpi_path := Some "/usr";
     params.opts_flags := Some [" -march=native"; " -mavx2"] |}.

Definition gpu_params : params.t :=
  gpu_params_with "./configure" false true (Some "9.0")
    (Some "/usr/local/cuda").

(** A GPU configuration whose cuDNN path does not exist. *)
Definition dangling_cudnn_params : params.t :=
  gpu_params_with "./configure" false true (Some "9.0") (Some "/missing/cudnn").

(** A GPU configuration whose CUDA version is the empty string. *)
Definition empty_version_params : params.t :=
  gpu_params_with "./configure" false true (Some "") (Some "/usr/local/cuda").

(** A GPU configuration without CUDA version and whose command does not exist. *)
Definition missing_command_params : params.t :=
  gpu_params_with "/missing/configure" false true None (Some "/usr/local/cuda").

(** No CUDA, and GPU parameters that are missing or dangling. *)
Definition no_cuda_params : params.t :=
  gpu_params_with "./configure" false false None (Some "/missing/cudnn").

(** The SYCL flag, with an existing command. *)
Definition sycl_params : params.t :=
  gpu_params_with "./configure" true true (Some "9.0") (Some "/usr/local/cuda").

(** The SYCL flag, with a command that does not exist. *)
Definition sycl_missing_command_params : params.t :=
  gpu_params_with "/missing/configure" true true (Some "9.0") (Some "/usr/local/cuda").

(** What the command line gives for
    [./configure 3.7 --with-cuda ... --opts-flags " -march=native"]. *)
Definition sample_namespace : namespace.t :=
  {| namespace.command := "./configure";
     namespace.python_version := "3.7";
     namespace.with_jemalloc := true;
     namespace.with_google_cloud_platform := false;
     namespace.with_hdfs := false;
     namespace.with_amazon_s3 := false;
     namespace.with_kafka := false;
     namespace.with_xla_jit := true;
     namespace.with_gdr := false;
     namespace.with_opencl_sycl := false;
     namespace.with_cuda := true;
     namespace.with_fresh_clang := false;
     namespace.with_mpi := false;
     namespace.cuda_version := Some "9.0";
     namespace.cuda_path := Some "/usr/local/cuda";
     namespace.cuda_cudnn_version := Some "7.0";
     namespace.cuda_cudnn_path := Some "/usr/local/cuda";
     namespace.cuda_with_tensorrt := false;
     namespace.cuda_tensorrt_path := None;
     namespace.cuda_nccl_version := Some "1.3";
     namespace.cuda_capabilities := Some ["3.5"];
     namespace.cuda_with_clang := false;
     namespace.cuda_gcc_path := Some "/usr/bin/gcc";
     namespace.mpi_path := None;
     namespace.opts_flags := Some [" -march=native"] |}.

(** A wizard that asks for CUDA without TensorRT and without MPI. *)
Definition cuda_lab : Platform := replay installed (prompts true false false).

(** A disk without /usr/bin/python3.6. *)
Definition no_python_lab : Platform :=
  replay (fun p => negb (String.eqb p "/usr/bin/python3.6"))
    (prompts false false false).

(** A disk without /usr/lib/python3/dist-packages. *)
Definition no_dist_lab : Platform :=
  replay (fun p => negb (String.eqb p "/usr/lib/python3/dist-packages"))
    (prompts false false false).

(** MPI asked for, with a path that does not exist. *)
Definition dangling_mpi_params : params.t :=
  {| params.command := "./configure";
     params.python_version := "3.6";
     params.with_jemalloc := false;
     params.with_google_cloud_platform := false;
     params.with_hdfs := false;
     params.with_amazon_s3 := false;
     params.with_kafka := false;
     params.with_xla_jit := false;
     params.with_gdr := false;
     params.with_verbs := false;
     params.with_opencl_sycl := false;
     params.with_cuda := false;
     params.with_fresh_clang := false;
     params.with_mpi := true;
     params.cuda_version := None;
     params.cuda_path := None;
     params.cuda_cudnn_version := None;
     params.cuda_cudnn_path := None;
     params.cuda_with_tensorrt := false;
     params.cuda_tensorrt_path := None;
     params.cuda_nccl_version := None;
     params.cuda_capabilities := None;
     params.cuda_with_clang := false;
     params.cuda_gcc_path := None;
     params.mpi_path := Some "/missing/openmpi";
     params.opts_flags := None |}.

(** The GPU configuration again, in which the clang flag and the two
    lists can be chosen. *)
Definition lists_params (clang : bool) (caps flags : option (list string))
  : params.t :=
  {| params.command := "./configure";
     params.python_version := "3.6";
     params.with_jemalloc := true;
     params.with_google_cloud_platform := false;
     params.with_hdfs := false;
     params.with_amazon_s3 := false;
     params.with_kafka := false;
     params.with_xla_jit := true;
     params.with_gdr := false;
     params.with_verbs := false;
     params.with_opencl_sycl := false;
     params.with_cuda := true;
     params.with_fresh_clang := false;
     params.with_mpi := true;
     params.cuda_version := Some "9.0";
     params.cuda_path := Some "/usr/local/cuda";
     params.cuda_cudnn_version := Some "7.0";
     params.cuda_cudnn_path := Some "/usr/local/cuda";
     params.cuda_with_tensorrt := true;
     params.cuda_tensorrt_path := Some "/usr/lib/x86_64-linux-gnu";
     params.cuda_nccl_version := Some "1.3";
     params.cuda_capabilities := caps;
     params.cuda_with_clang := clang;
     params.cuda_gcc_path := Some "/usr/bin/gcc";
     params.mpi_path := Some "/usr";
     params.opts_flags := flags |}.

(** The lists of [gpu_params], trimmed by the caller. *)
Definition trimmed_params : params.t :=
  lists_params false (Some ["3.5"; "5.2"])
    (Some ["-march=native"; "-mavx2"]).

(** An object on which [cuda_with_clang] was set after construction. *)
Definition clang_object : t :=
  built (lists_params true (Some ["3.5"]) None).

(** The session of [lab] once the command is spawned and the timeout
    set. *)
Definition lab_handle : @spawn lab :=
  @Build_spawn lab (prompts false false false) 2 None None false.

Definition lab_session : @state lab :=
  @Build_state lab (Some lab_handle) [] [EvSpawn "./configure"].

(** * Properties *)

(** ** Strings *)
Lemma lstrip_spec (s : string) :
  exists l : string,
    s = (l ++ lstrip s)%string /\ all_space l = true /\
    not_space (first_char (lstrip s)) = true.
Proof.
  induction s as [|c s IH]; simpl.
  - exists ""; auto.
  - destruct (isspace c) eqn:E.
    + destruct IH as (l & E1 & E2 & E3).
      exists (String c l); simpl. rewrite E, E2, <- E1. auto.
    + exists ""; simpl. rewrite E. auto.
Qed.

Lemma rstrip_spec (s : string) :
  exists r : string,
    s = (rstrip s ++ r)%string /\ all_space r = true /\
    not_space (last_char (rstrip s)) = true.
Proof.
  induction s as [|c s IH]; simpl.
  - exists ""; auto.
  - destruct IH as (r & E1 & E2 & E3).
    destruct (rstrip s) as [|d t] eqn:R.
    + simpl in E1. subst r. destruct (isspace c) eqn:E.
      * exists (String c s); simpl. rewrite E, E2. auto.
      * exists s; simpl. rewrite E. auto.
    + exists r. simpl in *. rewrite <- E1. repeat split; auto.
Qed.

Lemma rstrip_first_char (s : string) :
  not_space (first_char s) = true ->
  not_space (first_char (rstrip s)) = true.
Proof.
  destruct s as [|c s]; [auto|].
  cbn [first_char not_space rstrip]. intros E.
  destruct (rstrip s); [|exact E].
  destruct (isspace c) eqn:F; [discriminate E|].
  cbn [first_char not_space]. now rewrite F.
Qed.

Lemma strip_trim_of (x : string) : trim_of x (strip x).
Proof.
  unfold trim_of, strip.
  destruct (lstrip_spec x) as (l & E1 & E2 & E3).
  destruct (rstrip_spec (lstrip x)) as (r & F1 & F2 & F3).
  exists l, r. rewrite <- F1, <- E1.
  repeat split; auto using rstrip_first_char.
Qed.

Lemma map_strip_trim (l : list string) : Forall2 trim_of l (map strip l).
Proof. induction l; simpl; constructor; auto using strip_trim_of. Qed.

(** ** The constructor *)

Section Constructor.
Context `{Platform}.

Lemma bool_y_n_init_bool (b : bool) :
  bool_y_n.__init__ (PyBool b) = Ok (wrap_bool b).
Proof. destruct b; reflexivity. Qed.

Ltac dead := solve [split; [discriminate | intros [K _]; discriminate K]].
Ltac next x := destruct x eqn:?; cbn; try dead.
Ltac nexto x p := destruct x as [p|]; cbn; try dead.

Lemma init_ok_iff (a : params.t) (self : t) :
  __init__ a = Ok self <-> accepts a = true /\ self = built a.
Proof.
  unfold __init__, accepts, gpu_ok, mpi_ok, built.
  rewrite !bool_y_n_init_bool.
  destruct a as [cmd ver jm gcp hdfs s3 kafka xla gdr verbs sycl cuda fclang
                 mpi cver cpath dver dpath trt tpath nccl caps clang gcc
                 mpath opts]; cbn.
  next (path_exists cmd). next sycl. next clang.
  assert (Fin : forall (x y : t),
    (rbind (if mpi then
       rbind (assert_ (is_not_None mpath) "mpi_path must be set if with_mpi=True")
        (fun _ => rbind (os_path_exists mpath) (fun e => assert_ e "mpi_path is set a non existing folder"))
       else Ok tt) (fun _ => Ok x) = Ok y) <->
    ((if mpi then on_disk mpath else true) = true /\ y = x)).
  { intros x y. destruct mpi; cbn.
    - destruct mpath as [p|]; cbn; try dead. destruct (path_exists p); cbn; try dead.
      split; [intros [= <-]; auto | intros [_ ->]; auto].
    - split; [intros [= <-]; auto | intros [_ ->]; auto]. }
  destruct cuda; cbn; [|apply Fin].
  nexto cver p1. nexto cpath p2. nexto dver p3. nexto dpath p4.
  nexto nccl p5. nexto caps p6. nexto gcc p7.
  next (path_exists p2). next (path_exists p4). next (path_exists p7).
  destruct trt; cbn; [|apply Fin].
  nexto tpath p8. next (path_exists p8). apply Fin.
Qed.

Lemma main_rejected (a : params.t) (e : exn) (s : state) :
  __init__ a = Raise e -> main a s = (Raise e, s).
Proof. intros E. unfold main, bind, lift. rewrite E. reflexivity. Qed.


End Constructor.

(** ** A program logic for the session monad *)

Section Logic.
Context `{Platform}.

Lemma triple_bind {A B} P (m : M A) (k : A -> M B) Q R E :
  triple P m Q E -> (forall a, triple (Q a) (k a) R E) ->
  triple P (bind m k) R E.
Proof.
  intros Hm Hk s Hs. specialize (Hm s Hs). unfold bind.
  destruct (m s) as [[a|e] s']; [apply Hk; exact Hm | exact Hm].
Qed.

Lemma triple_ret {A} (P : state -> Prop) (a : A) E :
  triple P (ret a) (fun _ => P) E.
Proof. intros s Hs. exact Hs. Qed.

Lemma triple_lift_ok {A B} P (a : A) (k : A -> M B) Q E :
  triple P (k a) Q E -> triple P (bind (lift (Ok a)) k) Q E.
Proof. intros Hk s Hs. exact (Hk s Hs). Qed.

Lemma triple_lift_raise {A B} (P : state -> Prop) e (k : A -> M B) Q
    (E : exn -> state -> Prop) :
  (forall s, P s -> E e s) -> triple P (bind (lift (Raise e)) k) Q E.
Proof. intros HE s Hs. exact (HE s Hs). Qed.

Lemma triple_run {A} (P : state -> Prop) (m : M A) Q E s r s' :
  triple P m Q E -> P s -> m s = (r, s') ->
  match r with
  | Ok a => Q a s'
  | Raise e => E e s'
  end.
Proof. intros Hm Hs Hr. specialize (Hm s Hs). rewrite Hr in Hm. exact Hm. Qed.

(** *** Sessions *)

Lemma decodes_some (b : string) :
  decodes b = true -> exists t, utf8_decode b = Some t.
Proof.
  unfold decodes. destruct (utf8_decode b) as [t|]; [eauto | discriminate].
Qed.

Lemma halted_of_session tr c o s : session_at tr c o s -> halted tr s.
Proof. intros (h & Hs & Hc & Hio & _). exists h. auto. Qed.

Lemma io_of_halted tr s : halted tr s -> io s = tr.
Proof. intros (h & _ & _ & Hio). exact Hio. Qed.

Lemma io_of_ready tr c s : ready tr c s -> io s = tr.
Proof. intros (o & (h & _ & _ & Hio & _) & _). exact Hio. Qed.

Lemma open_of_halted tr s : halted tr s -> handle_open s.
Proof. intros (h & Hs & Hc & _). exists h. auto. Qed.

Lemma spawn_session (cmd : string) (c : child) (s : state) :
  spawn_child cmd = Some c ->
  exists s', pexpect.spawn_ cmd s = (Ok tt, s')
             /\ session_at (io s ++ [EvSpawn cmd]) c None s'.
Proof.
  intros Hc. unfold pexpect.spawn_. rewrite Hc. cbn.
  eexists. split; [reflexivity|]. eexists. cbn. repeat split.
Qed.

Lemma set_timeout_session (t : Z) tr c o s :
  session_at tr c o s ->
  exists s', pexpect.set_timeout t s = (Ok tt, s') /\ session_at tr c o s'.
Proof.
  intros (h & Hs & Hc & Hio & Hp & Ha).
  unfold pexpect.set_timeout, bind, get_script, set_script. rewrite Hs.
  eexists. split; [reflexivity|]. eexists. cbn. repeat split; assumption.
Qed.

(** *** One prompt *)

(** The text left by the last match is not valid UTF-8: the echo raises
    before the wait. *)
Lemma ask_after_fails (q : pattern) (ans : option answer) tr c a (s : state) :
  session_at tr c (Some (AfterBytes a)) s ->
  utf8_decode a = None ->
  _pexpect_line_answer q ans s = (Raise (UnicodeDecodeError "utf-8" a), s).
Proof.
  intros (h & Hs & _ & _ & _ & Ha) Hd.
  unfold _pexpect_line_answer, bind, get_script, lift, decode, bytes_decode.
  rewrite Hs, Ha, Hd. reflexivity.
Qed.

(** It can be echoed: the wait is made. *)
Lemma ask_outcome (q : pattern) (ans : option answer) tr c o (s : state) :
  session_at tr c o s ->
  printable o = true ->
  match child_expect c q with
  | Matched b a c' =>
      exists s',
        _pexpect_line_answer q ans s =
          (match utf8_decode b with
           | Some _ => Ok tt
           | None => Raise (UnicodeDecodeError "utf-8" b)
           end, s')
        /\ session_at (tr ++ EvExpect q :: sent ans) (child_sent c' ans)
             (Some (match q with
                    | Re _ => AfterBytes a
                    | PEOF => AfterEOF
                    end)) s'
  | TimedOut _ _ =>
      exists s', _pexpect_line_answer q ans s = (Raise TIMEOUT, s')
                 /\ halted (tr ++ [EvExpect q]) s'
  | Ended _ _ =>
      exists s', _pexpect_line_answer q ans s = (Raise EOF, s')
                 /\ halted (tr ++ [EvExpect q]) s'
  end.
Proof.
  intros (h & Hs & Hc & Hio & Hp & Ha) Hd.
  destruct s as [sc out ev]; cbn in Hs, Hio; subst sc ev.
  destruct h as [c0 t b0 a0 cl]; cbn in Hc, Hp, Ha; subst c0 cl a0.
  unfold _pexpect_line_answer, pexpect.expect, pexpect.sendline, bind,
    get_script, emit, set_script, print, lift, ret, raise, decode,
    bytes_decode; cbn.
  destruct o as [[a0| |]|]; try discriminate; cbn;
    try (apply decodes_some in Hd; destruct Hd as [t0 ->]; cbn);
    destruct (child_expect c q) as [b a c'|b c'|b c']; cbn;
    destruct ans; cbn; try destruct (utf8_decode b); cbn;
    eexists; (split; [reflexivity|]);
    unfold halted, session_at; cbn; rewrite <- ?app_assoc; cbn;
    eexists; cbn; repeat split.
Qed.

(** *** Rules for a child that is known to show the prompts *)

Lemma triple_spawn_ok (cmd : string) (c : child) (tr : list event) E :
  spawn_child cmd = Some c ->
  triple (fun s => io s = tr) (pexpect.spawn_ cmd)
    (fun _ => ready (tr ++ [EvSpawn cmd]) c) E.
Proof.
  intros Hc s Hs. destruct (spawn_session cmd c s Hc) as (s' & -> & Hs').
  rewrite Hs in Hs'. exists None. auto.
Qed.

Lemma triple_set_timeout (t : Z) tr c E :
  triple (ready tr c) (pexpect.set_timeout t) (fun _ => ready tr c) E.
Proof.
  intros s (o & Hs & Ho).
  destruct (set_timeout_session t tr c o s Hs) as (s' & -> & Hs').
  exists o. auto.
Qed.

Lemma triple_ask_matched (q : string) (ans : option answer) tr c b a c'
    (E : exn -> state -> Prop) :
  child_expect c (Re q) = Matched b a c' ->
  decodes b = true ->
  decodes a = true ->
  triple (ready tr c) (_pexpect_line_answer (Re q) ans)
    (fun _ => ready (tr ++ EvExpect (Re q) :: sent ans) (child_sent c' ans)) E.
Proof.
  intros Hm Hb Ha s (o & Hs & Ho).
  pose proof (ask_outcome (Re q) ans tr c o s Hs Ho) as Hq.
  rewrite Hm in Hq. destruct Hq as (s' & -> & Hs').
  apply decodes_some in Hb. destruct Hb as [t ->].
  eexists. split; [exact Hs' | exact Ha].
Qed.

Lemma triple_ask_matched_end (q : pattern) (ans : option answer) tr tr' c b a
    c' (E : exn -> state -> Prop) :
  tr ++ EvExpect q :: sent ans = tr' ->
  child_expect c q = Matched b a c' ->
  decodes b = true ->
  triple (ready tr c) (_pexpect_line_answer q ans) (fun _ => halted tr') E.
Proof.
  intros <- Hm Hb s (o & Hs & Ho).
  pose proof (ask_outcome q ans tr c o s Hs Ho) as Hq.
  rewrite Hm in Hq. destruct Hq as (s' & -> & Hs').
  apply decodes_some in Hb. destruct Hb as [t ->].
  exact (halted_of_session _ _ _ _ Hs').
Qed.

(** *** Rules for any child *)

Lemma io_of_armed E tr s : armed E tr s -> io s = tr.
Proof. intros (c & o & (h & _ & _ & Hio & _) & _). exact Hio. Qed.

Lemma triple_spawn_some (cmd : string) (tr : list event) E :
  (forall s, io s = tr -> E (ExceptionPexpect
     "The command was not found or was not executable") s) ->
  triple (fun s => io s = tr) (pexpect.spawn_ cmd)
    (fun _ => armed E (tr ++ [EvSpawn cmd])) E.
Proof.
  intros HE s Hs. destruct (spawn_child cmd) as [c|] eqn:Hc.
  - destruct (spawn_session cmd c s Hc) as (s' & -> & Hs').
    rewrite Hs in Hs'. exists c, None.
    split; [exact Hs'|]. split; [reflexivity|]. intros K. now destruct K.
  - unfold pexpect.spawn_. rewrite Hc. cbn. auto.
Qed.

Lemma triple_set_timeout_some (t : Z) tr E :
  triple (armed E tr) (pexpect.set_timeout t) (fun _ => armed E tr) E.
Proof.
  intros s (c & o & Hs & Ho).
  destruct (set_timeout_session t tr c o s Hs) as (s' & -> & Hs').
  exists c, o. auto.
Qed.

(** What one prompt does to an armed session: it stops as [E] allows, or
    the session is at the end of the prompt and holds what the match
    left. *)
Lemma ask_armed (q : pattern) (ans : option answer) tr
    (E : exn -> state -> Prop) (s : state) :
  (forall s0, halted (tr ++ [EvExpect q]) s0 -> E TIMEOUT s0 /\ E EOF s0) ->
  (forall s0, halted (tr ++ EvExpect q :: sent ans) s0 ->
   forall b, E (UnicodeDecodeError "utf-8" b) s0) ->
  armed E tr s ->
  match _pexpect_line_answer q ans s with
  | (Ok _, s') =>
      exists c a,
        session_at (tr ++ EvExpect q :: sent ans) c
          (Some (match q with
                 | Re _ => AfterBytes a
                 | PEOF => AfterEOF
                 end)) s'
  | (Raise e, s') => E e s'
  end.
Proof.
  intros Hwait Hecho (c & o & Hs & Ho & Hstop).
  assert (Hgo : printable o = true ->
    match _pexpect_line_answer q ans s with
    | (Ok _, s') =>
        exists c a,
          session_at (tr ++ EvExpect q :: sent ans) c
            (Some (match q with
                   | Re _ => AfterBytes a
                   | PEOF => AfterEOF
                   end)) s'
    | (Raise e, s') => E e s'
    end).
  { intros Hp. pose proof (ask_outcome q ans tr c o s Hs Hp) as Hq.
    destruct (child_expect c q) as [b a c'|b c'|b c'];
      destruct Hq as (s' & -> & Hs').
    - destruct (utf8_decode b).
      + exists (child_sent c' ans), a. exact Hs'.
      + apply Hecho. exact (halted_of_session _ _ _ _ Hs').
    - apply Hwait, Hs'.
    - apply Hwait, Hs'. }
  destruct o as [[a0| |]|]; try discriminate; [|apply Hgo; reflexivity].
  destruct (utf8_decode a0) as [t0|] eqn:Hd.
  - apply Hgo. cbn. unfold decodes. now rewrite Hd.
  - rewrite (ask_after_fails q ans tr c a0 s Hs Hd).
    apply Hstop; [discriminate | exact (halted_of_session _ _ _ _ Hs)].
Qed.

Lemma triple_ask (q : string) (ans : option answer) tr
    (E : exn -> state -> Prop) :
  (forall s, halted (tr ++ [EvExpect (Re q)]) s -> E TIMEOUT s /\ E EOF s) ->
  (forall s, halted (tr ++ EvExpect (Re q) :: sent ans) s ->
   forall b, E (UnicodeDecodeError "utf-8" b) s) ->
  triple (armed E tr) (_pexpect_line_answer (Re q) ans)
    (fun _ => armed E (tr ++ EvExpect (Re q) :: sent ans)) E.
Proof.
  intros Hwait Hecho s Hs.
  pose proof (ask_armed (Re q) ans tr E s Hwait Hecho Hs) as Hq.
  destruct (_pexpect_line_answer (Re q) ans s) as [[[]|e] s']; [|exact Hq].
  destruct Hq as (c & a & Hs').
  exists c, (Some (AfterBytes a)).
  split; [exact Hs'|]. split; [reflexivity|]. intros _. exact Hecho.
Qed.

Lemma triple_ask_end (q : pattern) (ans : option answer) tr tr'
    (E : exn -> state -> Prop) :
  tr ++ EvExpect q :: sent ans = tr' ->
  (forall s, halted (tr ++ [EvExpect q]) s -> E TIMEOUT s /\ E EOF s) ->
  (forall s, halted tr' s -> forall b, E (UnicodeDecodeError "utf-8" b) s) ->
  triple (armed E tr) (_pexpect_line_answer q ans) (fun _ => halted tr') E.
Proof.
  intros <- Hwait Hecho s Hs.
  pose proof (ask_armed q ans tr E s Hwait Hecho Hs) as Hq.
  destruct (_pexpect_line_answer q ans s) as [[[]|e] s']; [|exact Hq].
  destruct Hq as (c & a & Hs'). exact (halted_of_session _ _ _ _ Hs').
Qed.

Lemma python_bin_path_eval (self : t) :
  python_bin_path self =
  if path_exists ("/usr/bin/python" ++ python_version self)
  then Ok ("/usr/bin/python" ++ python_version self)%string
  else Raise (AssertionError
                (("/usr/bin/python" ++ python_version self) ++ " does not exist")).
Proof.
  unfold python_bin_path, assert_.
  destruct (path_exists _); reflexivity.
Qed.

Lemma python_dist_path_eval (self : t) :
  python_dist_path self =
  if path_exists (dist_packages (python_version self))
  then Ok (dist_packages (python_version self))
  else Raise (AssertionError
                (dist_packages (python_version self) ++ " does not exist")).
Proof.
  unfold python_dist_path, assert_, dist_packages.
  destruct (path_exists _); reflexivity.
Qed.

(** ** The handle stays open *)

Lemma keeps_open_bind {A B} (m : M A) (k : A -> M B) :
  keeps_open m -> (forall a, keeps_open (k a)) -> keeps_open (bind m k).
Proof. intros Hm Hk. exact (triple_bind _ _ _ _ _ _ Hm Hk). Qed.

Lemma keeps_open_pure {A} (m : M A) :
  (forall s, snd (m s) = s) -> keeps_open m.
Proof.
  intros Hm s Hs. specialize (Hm s).
  destruct (m s) as [[a|e] s']; cbn in Hm; subst s'; exact Hs.
Qed.

Lemma keeps_open_print (t : text) : keeps_open (print t).
Proof. intros s Hs. exact Hs. Qed.

Lemma keeps_open_expect (q : pattern) : keeps_open (pexpect.expect q).
Proof.
  intros s (h & Hs & Hc).
  unfold pexpect.expect, bind, get_script, emit, set_script, raise.
  rewrite Hs. cbn.
  destruct (child_expect (proc h) q); cbn; eexists; cbn; split;
    try reflexivity; exact Hc.
Qed.

Lemma keeps_open_sendline (a : answer) : keeps_open (pexpect.sendline a).
Proof.
  intros s (h & Hs & Hc).
  unfold pexpect.sendline, bind, get_script, emit, set_script.
  rewrite Hs. cbn. eexists. cbn. split; [reflexivity | exact Hc].
Qed.

Lemma keeps_open_set_timeout (t : Z) : keeps_open (pexpect.set_timeout t).
Proof.
  intros s (h & Hs & Hc).
  unfold pexpect.set_timeout, bind, get_script, set_script.
  rewrite Hs. cbn. eexists. cbn. split; [reflexivity | exact Hc].
Qed.

End Logic.

(** Applies the rules above along a program; the argument is the rule to
    use for [_pexpect_line_answer]. *)
Ltac keeps_with rule :=
  repeat first
    [ apply keeps_open_print
    | apply keeps_open_expect
    | apply keeps_open_sendline
    | apply keeps_open_set_timeout
    | apply rule
    | apply keeps_open_bind; [|intros ?]
    | apply keeps_open_pure; intros ?;
      solve [ reflexivity
            | unfold get_script; destruct (script _); reflexivity
            | unfold lift; reflexivity ]
    | match goal with
      | |- keeps_open (match ?x with _ => _ end) => destruct x
      end ].

Lemma keeps_open_line_answer `{Platform} (q : pattern) (ans : option answer) :
  keeps_open (_pexpect_line_answer q ans).
Proof. unfold _pexpect_line_answer. keeps_with keeps_open_print. Qed.

(** ** Reading traces *)

Lemma pattern_eqb_eq (p q : pattern) : pattern_eqb p q = true -> p = q.
Proof.
  destruct p, q; cbn; try discriminate; [|reflexivity].
  intros E. apply String.eqb_eq in E. now subst.
Qed.

Lemma pattern_eqb_refl (p : pattern) : pattern_eqb p p = true.
Proof. destruct p; cbn; [apply String.eqb_refl | reflexivity]. Qed.

Lemma event_eqb_eq (e1 e2 : event) : event_eqb e1 e2 = true -> e1 = e2.
Proof.
  destruct e1, e2; cbn; try discriminate; intros E.
  - apply String.eqb_eq in E. now subst.
  - apply pattern_eqb_eq in E. now subst.
  - apply String.eqb_eq in E. now subst.
Qed.

Lemma begins_sound (nxt l : list event) :
  begins nxt l = true -> exists l', l = nxt ++ l'.
Proof.
  revert l. induction nxt as [|x nxt IH]; intros l Hb; cbn in Hb.
  - exists l. reflexivity.
  - destruct l as [|y l]; [discriminate|].
    apply andb_prop in Hb. destruct Hb as [Hx Hb].
    apply event_eqb_eq in Hx. subst y.
    destruct (IH l Hb) as [l' ->]. exists l'. reflexivity.
Qed.

Lemma follows_sound (q : pattern) (nxt l : list event) :
  follows q nxt l = true ->
  forall pre post, l = pre ++ EvExpect q :: post ->
  exists post', post = nxt ++ post'.
Proof.
  intros Hl pre. revert l Hl.
  induction pre as [|e pre IH]; intros l Hl post ->; cbn in Hl;
    apply andb_prop in Hl; destruct Hl as [Hhere Hl].
  - rewrite pattern_eqb_refl in Hhere. now apply begins_sound.
  - exact (IH _ Hl post eq_refl).
Qed.

(** What comes after a wait for [q] in the beginning [tr] of [l]. *)
Lemma follows_in_prefix (q : pattern) (nxt l tr rest pre post : list event) :
  follows q nxt l = true ->
  l = tr ++ rest ->
  tr = pre ++ EvExpect q :: post ->
  exists post', post ++ rest = nxt ++ post'.
Proof.
  intros Hl -> ->. rewrite <- app_assoc in Hl. cbn in Hl.
  exact (follows_sound q nxt _ Hl pre (post ++ rest) eq_refl).
Qed.

Lemma expected_app (l1 l2 : list event) :
  expected (l1 ++ l2) = expected l1 ++ expected l2.
Proof.
  induction l1 as [|[c|q|x] l1 IH]; cbn; [reflexivity| | |]; now rewrite ?IH.
Qed.

Lemma ends_with_wait_sound (tr : list event) :
  ends_with_wait tr = true -> exists tr' q, tr = tr' ++ [EvExpect q].
Proof.
  unfold ends_with_wait. intros E.
  destruct (rev tr) as [|[c|q|x] l] eqn:R; try discriminate.
  exists (rev l), q. rewrite <- (rev_involutive tr), R. reflexivity.
Qed.


Lemma stop_shape_fault (e : exn) (tr rest : list event) :
  stop_shape e tr rest = true -> interaction_fault e = true.
Proof. destruct e; cbn; auto. Qed.

(** ** Walking through [run] *)

Ltac split_andb :=
  repeat match goal with
         | K : _ && _ = true |- _ => apply andb_prop in K; destruct K
         end.

Ltac known_fields :=
  repeat match goal with
         | K : is_not_None ?o = true |- _ =>
             destruct o; [clear K | discriminate K]
         | K : on_disk ?o = true |- _ =>
             destruct o; [clear K | discriminate K]
         end.

Ltac io_fact Hs :=
  first [ apply io_of_halted in Hs | apply io_of_armed in Hs
        | apply io_of_ready in Hs | idtac ].

(** One rule per statement of [run]; [leaf] proves what is asked where the
    run may stop. *)
Ltac walk leaf :=
  lazymatch goal with
  | |- triple _ (bind (lift (Ok _)) _) _ _ =>
      apply triple_lift_ok; walk leaf
  | |- triple _ (bind (lift (Raise _)) _) _ _ =>
      apply triple_lift_raise; leaf
  | |- triple _ (bind (lift (if ?b then _ else _)) _) _ _ =>
      destruct b; walk leaf
  | |- triple _ (bind _ _) _ _ =>
      eapply triple_bind; [ walk leaf | intros ?; walk leaf ]
  | |- triple _ (_pexpect_line_answer _ _) (fun _ => halted _) _ =>
      apply triple_ask_end; [reflexivity | leaf | leaf]
  | |- triple _ (_pexpect_line_answer (Re _) _) _ _ =>
      apply triple_ask; leaf
  | |- triple _ (pexpect.spawn_ _) _ _ => apply triple_spawn_some; leaf
  | |- triple _ (pexpect.set_timeout _) _ _ => apply triple_set_timeout_some
  | |- triple _ (ret _) _ _ => apply triple_ret
  end.

(** The same walk when every wait is known to match and the text of the
    child to be valid UTF-8. *)
Ltac walk_matched :=
  lazymatch goal with
  | |- triple _ (bind (lift (Ok _)) _) _ _ =>
      apply triple_lift_ok; walk_matched
  | |- triple _ (bind _ _) _ _ =>
      eapply triple_bind; [ walk_matched | intros ?; walk_matched ]
  | |- triple _ (_pexpect_line_answer _ _) (fun _ => halted _) _ =>
      eapply triple_ask_matched_end; [reflexivity | eassumption | assumption]
  | |- triple _ (_pexpect_line_answer (Re _) _) _ _ =>
      eapply triple_ask_matched; [eassumption | assumption | assumption]
  | |- triple _ (pexpect.spawn_ _) _ _ => eapply triple_spawn_ok; eassumption
  | |- triple _ (pexpect.set_timeout _) _ _ => apply triple_set_timeout
  | |- triple _ (ret _) _ _ => apply triple_ret
  end.

(** Turns [shows c l = true] into the facts on each wait: the match, and
    the text before and in it being valid UTF-8. *)
Ltac matches Hshow :=
  cbn in Hshow;
  repeat (match type of Hshow with
          | context [child_expect ?ch ?qu] =>
              destruct (child_expect ch qu) as [?b ?t ?c| |] eqn:?;
              [ | discriminate Hshow | discriminate Hshow]
          end;
          apply andb_prop in Hshow;
          let K := fresh "Hb" in
          destruct Hshow as [K Hshow];
          try (apply andb_prop in Hshow;
               let K' := fresh "Ha" in
               destruct Hshow as [K' Hshow])).

(** Where a run stops: within the dialogue, as [stop_shape] says. *)
Ltac leaf_within :=
  let s := fresh "s" in
  let Hs := fresh "Hs" in
  intros s Hs; io_fact Hs; unfold stops_within; rewrite Hs;
  lazymatch goal with
  | |- _ /\ _ => split
  | |- forall _, _ => intros ?
  | |- _ => idtac
  end;
  eexists; (split; reflexivity).

Section Driver.
Context `{Platform}.

(** Every run of a constructed object either completes with the whole
    dialogue or stops within it, as [stops_within] says. *)
Lemma run_traces (a : params.t) :
  accepts a = true ->
  triple (fun s => io s = []) (run (built a))
    (fun _ => halted (dialogue (built a)))
    (stops_within (built a)).
Proof.
  intros Hacc.
  destruct a as [cmd ver jm gcp hdfs s3 kafka xla gdr verbs sycl cuda fclang
                 mpi cver cpath dver dpath trt tpath nccl caps clang gcc
                 mpath opts].
  unfold accepts, gpu_ok, mpi_ok in Hacc. cbn in Hacc.
  unfold run. rewrite python_bin_path_eval, python_dist_path_eval.
  destruct cuda; [destruct trt|]; destruct mpi; split_andb;
    destruct sycl, clang; try discriminate; known_fields; cbn.
  all: walk leaf_within.
Qed.

(** What a run of a constructed object from a fresh session ends with. *)
Lemma run_outcome (a : params.t) (r : result unit) (s' : state) :
  accepts a = true ->
  run (built a) fresh = (r, s') ->
  match r with
  | Ok _ => io s' = dialogue (built a)
  | Raise e => stops_within (built a) e s'
  end.
Proof.
  intros Hacc Hrun.
  pose proof (triple_run _ _ _ _ fresh _ _ (run_traces a Hacc) eq_refl Hrun)
    as Hend.
  destruct r as [[]|e]; [apply io_of_halted in Hend|]; exact Hend.
Qed.

(** The prompts of the dialogue of a constructed object are those the
    three flags fix. *)
Lemma dialogue_built (a : params.t) :
  accepts a = true ->
  expected (dialogue (built a)) =
    prompts (params.with_cuda a) (params.cuda_with_tensorrt a)
      (params.with_mpi a).
Proof.
  intros Hacc.
  destruct a as [cmd ver jm gcp hdfs s3 kafka xla gdr verbs sycl cuda fclang
                 mpi cver cpath dver dpath trt tpath nccl caps clang gcc
                 mpath opts].
  unfold accepts, gpu_ok, mpi_ok in Hacc. cbn in Hacc.
  destruct cuda; [destruct trt|]; destruct mpi; split_andb;
    destruct sycl, clang; try discriminate; known_fields;
    vm_compute; reflexivity.
Qed.


(** In the dialogue of an object constructed without [with_verbs] the
    VERBS prompt is followed by "N". *)
Lemma dialogue_declines_verbs (a : params.t) :
  accepts a = true ->
  params.with_verbs a = false ->
  follows q_verbs [EvSendline "N"] (dialogue (built a)) = true.
Proof.
  intros Hacc Hverbs.
  destruct a as [cmd ver jm gcp hdfs s3 kafka xla gdr verbs sycl cuda fclang
                 mpi cver cpath dver dpath trt tpath nccl caps clang gcc
                 mpath opts].
  unfold accepts, gpu_ok, mpi_ok in Hacc. cbn in Hacc, Hverbs. subst verbs.
  destruct cuda; [destruct trt|]; destruct mpi; split_andb;
    destruct sycl, clang; try discriminate; known_fields;
    vm_compute; reflexivity.
Qed.

End Driver.

(** * The claims *)

Section Claims.
Context `{Platform}.

(** C1.  For the minimal configuration (no feature flag, no GPU, no MPI,
    no optimisation flag) with an existing command, existing interpreter
    paths and a child that shows every prompt waited for, in valid UTF-8,
    construction succeeds and [run] does exactly this, in this order:
    spawn, the interpreter binary prompt, the interpreter library prompt,
    the nine yes/no feature prompts each answered "N", the CUDA prompt
    answered "N", the fresh-clang prompt answered "N" (no GPU prompt at
    all), the MPI prompt answered "N" (no MPI path prompt), the
    optimisation-flags prompt answered with the empty string, the Android
    prompt answered "N", the wait for the completion marker and the wait
    for end of stream; it then returns normally. *)
Theorem run_minimal_configuration (a : params.t) (c0 : child) :
  minimal a = true ->
  path_exists (params.command a) = true ->
  path_exists ("/usr/bin/python" ++ params.python_version a) = true ->
  path_exists (dist_packages (params.python_version a)) = true ->
  spawn_child (params.command a) = Some c0 ->
  shows c0 (minimal_dialogue a) = true ->
  exists (self : t) (s' : state),
    __init__ a = Ok self
    /\ run self fresh = (Ok tt, s')
    /\ main a fresh = (Ok tt, s')
    /\ io s' = minimal_dialogue a.
Proof.
  intros Hmin Hcmd Hbin Hlib Hspawn Hshow.
  assert (Hacc : accepts a = true).
  { unfold minimal in Hmin. unfold accepts, mpi_ok. split_andb.
    rewrite Hcmd.
    repeat match goal with
           | K : negb ?b = true |- _ =>
               apply negb_true_iff in K; rewrite ?K
           end.
    reflexivity. }
  assert (Hinit : __init__ a = Ok (built a)) by (now apply init_ok_iff).
  assert (T : triple (fun s => io s = []) (run (built a))
                (fun _ => halted (minimal_dialogue a)) (fun _ _ => False)).
  { clear Hacc Hinit.
    destruct a as [cmd ver jm gcp hdfs s3 kafka xla gdr verbs sycl cuda
                   fclang mpi cver cpath dver dpath trt tpath nccl caps
                   clang gcc mpath opts].
    unfold minimal in Hmin. cbn in *. split_andb.
    repeat match goal with
           | K : negb ?b = true |- _ => apply negb_true_iff in K; subst b
           end.
    destruct opts; [discriminate|].
    unfold run. rewrite python_bin_path_eval, python_dist_path_eval.
    cbn. rewrite Hbin, Hlib.
    matches Hshow.
    walk_matched. }
  destruct (run (built a) fresh) as [r s'] eqn:Hrun.
  pose proof (triple_run _ _ _ _ fresh _ _ T eq_refl Hrun) as Hend.
  destruct r as [[]|e]; [|contradiction].
  exists (built a), s'. repeat split; auto.
  - unfold main, bind, lift. rewrite Hinit. exact Hrun.
  - apply io_of_halted in Hend. exact Hend.
Qed.

Ltac unusable_here :=
  cbn; rewrite ?Bool.negb_true_iff; solve [reflexivity | assumption].

Ltac names f :=
  exists f; eexists; split; [reflexivity|]; split; [reflexivity|];
  split; [intros ?; reflexivity|];
  split; [unusable_here|]; split; [unusable_here|]; split; [reflexivity|];
  let Hu := fresh "Hu" in
  intros Hu; apply Hu; unusable_here.

(** C2, as amended.  When [with_cuda] is set, the command exists and the
    two unimplemented flags are unset, then, as soon as some GPU parameter
    that is looked at is unusable ([None], or a path that does not exist;
    the TensorRT path only when TensorRT is requested), construction
    raises the AssertionError of the first check that fails, in the order
    of [gpu_checks].  The message begins with the name of the parameter
    that check looks at, which is an unusable parameter itself, and is the
    parameter in question when no other is unusable.  [main] ends with
    that error in an unchanged session: no child is spawned. *)
Theorem init_names_unusable_gpu_field (a : params.t) (f : gpu_field) :
  params.with_cuda a = true ->
  path_exists (params.command a) = true ->
  params.with_opencl_sycl a = false ->
  params.cuda_with_clang a = false ->
  required a f = true ->
  unusable a f = true ->
  exists (g : gpu_field) (msg : string),
    first_failing (gpu_checks a) = Some (g, msg)
    /\ __init__ a = Raise (AssertionError msg)
    /\ (forall s, main a s = (Raise (AssertionError msg), s))
    /\ required a g = true
    /\ unusable a g = true
    /\ startswith msg (field_name g) = true
    /\ ((forall f', required a f' = true -> unusable a f' = true -> f' = f)
        -> g = f).
Proof.
  destruct a as [cmd ver jm gcp hdfs s3 kafka xla gdr verbs sycl cuda fclang
                 mpi cver cpath dver dpath trt tpath nccl caps clang gcc
                 mpath opts]; cbn.
  intros -> Hcmd -> -> Hreq Hbad.
  unfold main, bind, lift, __init__, gpu_checks; cbn. rewrite Hcmd; cbn.
  destruct cver as [p1|]; cbn; [|names F_cuda_version].
  destruct cpath as [p2|]; cbn; [|names F_cuda_path].
  destruct dver as [p3|]; cbn; [|names F_cuda_cudnn_version].
  destruct dpath as [p4|]; cbn; [|names F_cuda_cudnn_path].
  destruct nccl as [p5|]; cbn; [|names F_cuda_nccl_version].
  destruct caps as [p6|]; cbn; [|names F_cuda_capabilities].
  destruct gcc as [p7|]; cbn; [|names F_cuda_gcc_path].
  destruct (path_exists p2) eqn:E2; cbn; [|names F_cuda_path].
  destruct (path_exists p4) eqn:E4; cbn; [|names F_cuda_cudnn_path].
  destruct (path_exists p7) eqn:E7; cbn; [|names F_cuda_gcc_path].
  destruct trt; cbn.
  - destruct tpath as [p8|]; cbn; [|names F_cuda_tensorrt_path].
    destruct (path_exists p8) eqn:E8; cbn; [|names F_cuda_tensorrt_path].
    destruct f; cbn in Hbad; rewrite ?E2, ?E4, ?E7, ?E8 in Hbad; discriminate.
  - destruct f; cbn in Hbad, Hreq; rewrite ?E2, ?E4, ?E7 in Hbad; discriminate.
Qed.

(** C3.  When [with_cuda] is unset, the command exists, the two
    unimplemented flags are unset and the MPI rule holds, construction
    succeeds whatever the GPU parameters are: they are stored as given
    and none is checked. *)
Theorem init_ignores_gpu_fields_without_cuda (a : params.t) :
  params.with_cuda a = false ->
  path_exists (params.command a) = true ->
  params.with_opencl_sycl a = false ->
  params.cuda_with_clang a = false ->
  mpi_ok a = true ->
  __init__ a = Ok (built a).
Proof.
  intros Hcuda Hcmd Hsycl Hclang Hmpi.
  apply init_ok_iff. split; [|reflexivity].
  unfold accepts. rewrite Hcuda, Hcmd, Hsycl, Hclang, Hmpi. reflexivity.
Qed.

(** C4, as amended.  When [with_opencl_sycl] or [cuda_with_clang] is set,
    construction fails whatever the other parameters are, and [main] ends
    with that error in an unchanged session (no child is spawned).  The
    error is the NotImplementedError of the first of the two flags that
    is set when the command exists; when it does not, the assertion on
    the command comes first and the error is that AssertionError. *)
Theorem init_rejects_unimplemented (a : params.t) :
  params.with_opencl_sycl a = true \/ params.cuda_with_clang a = true ->
  exists e : exn,
    __init__ a = Raise e
    /\ (forall s, main a s = (Raise e, s))
    /\ e = (if path_exists (params.command a) then
              if params.with_opencl_sycl a
              then NotImplementedError
                     "with_opencl_sycl=True is not implemented"
              else NotImplementedError
                     "cuda_with_clang=True is not implemented"
            else AssertionError
                   "command must be a valid path to TensorFlow configure script").
Proof.
  intros Hflag.
  assert (E : __init__ a =
    Raise (if path_exists (params.command a) then
              if params.with_opencl_sycl a
              then NotImplementedError
                     "with_opencl_sycl=True is not implemented"
              else NotImplementedError
                     "cuda_with_clang=True is not implemented"
            else AssertionError
                   "command must be a valid path to TensorFlow configure script")).
  { unfold __init__.
    destruct (path_exists (params.command a)); cbn; [|reflexivity].
    destruct (params.with_opencl_sycl a); cbn; [reflexivity|].
    destruct (params.cuda_with_clang a); cbn; [reflexivity|].
    destruct Hflag; discriminate. }
  eexists. split; [exact E|]. split; [|reflexivity].
  intros s. apply main_rejected, E.
Qed.

(** C5, as amended.  [run] never closes the handle it spawns: once the
    command is spawned, however [run] ends (normal return, a wait that
    times out or meets end of stream, a failed assertion on an
    interpreter path, the unimplemented branch), [self.script] still
    holds the handle and the handle is not closed. *)
Theorem run_never_closes_child (self : t) (c0 : child) (s : state)
    (r : result unit) (s' : state) :
  spawn_child (command self) = Some c0 ->
  run self s = (r, s') ->
  exists h, script s' = Some h /\ closed h = false.
Proof.
  intros Hspawn Hrun.
  assert (T : triple (fun _ => True) (run self)
                (fun _ => handle_open) (fun _ => handle_open)).
  { unfold run. eapply triple_bind with (Q := fun _ => handle_open).
    - intros s0 _. unfold pexpect.spawn_. rewrite Hspawn. cbn.
      eexists. cbn. split; reflexivity.
    - intros _.
      lazymatch goal with |- triple _ ?m _ _ => change (keeps_open m) end.
      keeps_with keeps_open_line_answer. }
  pose proof (triple_run _ _ _ _ s _ _ T I Hrun) as Hend.
  destruct r; exact Hend.
Qed.

(** C6, as amended.  [opts_flags_str] is the empty string when no flags
    were given; otherwise it is the flags, each without its leading and
    trailing whitespace, joined by one space.  On
    [" -march=native"; " -mavx2"] it is "-march=native -mavx2": the
    leading space of each flag is trimmed away. *)
Theorem opts_flags_str_trims_and_joins (self : t)
    (flags : option (list string)) :
  opts_flags self = flags ->
  match flags with
  | None => opts_flags_str self = ""
  | Some l =>
      exists l', Forall2 trim_of l l' /\ opts_flags_str self = join " " l'
  end
  /\ (flags = Some [" -march=native"; " -mavx2"] ->
      opts_flags_str self = "-march=native -mavx2").
Proof.
  intros E. unfold opts_flags_str. rewrite E. split.
  - destruct flags as [l|]; [|reflexivity].
    exists (map strip l). split; [apply map_strip_trim | reflexivity].
  - intros ->. reflexivity.
Qed.

(** C7.  The yes/no wrapper is total on booleans and renders [True] as
    the one character "Y" and [False] as the one character "N", never as
    "True" or "False"; [__repr__], [__str__] and [encode] agree, and
    wrapping the truth value of a wrapper again renders the same. *)
Theorem bool_y_n_renders_Y_or_N (b : bool) :
  exists w : bool_y_n.t,
    bool_y_n.__init__ (PyBool b) = Ok w
    /\ bool_y_n.__str__ w = (if b then "Y" else "N")
    /\ bool_y_n.__repr__ w = bool_y_n.__str__ w
    /\ bool_y_n.encode w "utf-8" = bool_y_n.__str__ w
    /\ String.length (bool_y_n.__str__ w) = 1
    /\ bool_y_n.__str__ w <> "True" /\ bool_y_n.__str__ w <> "False"
    /\ exists w' : bool_y_n.t,
         bool_y_n.__init__ (PyBool (bool_y_n.__bool__ w)) = Ok w'
         /\ bool_y_n.__str__ w' = bool_y_n.__str__ w.
Proof.
  exists (wrap_bool b). destruct b; cbn;
    repeat split; try discriminate; eexists; split; reflexivity.
Qed.

(** C8.  [cuda_capabilities_str] is the capabilities, each without its
    leading and trailing whitespace, joined by commas; on
    ["3.5"; " 5.2 "] it is "3.5,5.2". *)
Theorem cuda_capabilities_str_trims_and_joins (self : t) (l : list string) :
  cuda_capabilities self = Some l ->
  (exists l', Forall2 trim_of l l'
              /\ cuda_capabilities_str self = Ok (join "," l'))
  /\ (l = ["3.5"; " 5.2 "] -> cuda_capabilities_str self = Ok "3.5,5.2").
Proof.
  intros E. unfold cuda_capabilities_str. rewrite E. split.
  - exists (map strip l). split; [apply map_strip_trim | reflexivity].
  - intros ->. reflexivity.
Qed.



(** C10.  Wrapping a boolean and taking the truth value gives the boolean
    back, so on a constructed object the four flags [run] branches on
    have the truth values the caller passed.  The prompts a run from a
    fresh session waits for are a prefix of the sequence fixed by
    [with_cuda], [cuda_with_tensorrt] and [with_mpi] alone, and the whole
    sequence when the run completes; a run that does not complete ends
    with a fault of the interaction, UnicodeDecodeError included. *)
Theorem branches_follow_the_flags (a : params.t) (self : t)
    (r : result unit) (s' : state) :
  __init__ a = Ok self ->
  run self fresh = (r, s') ->
  (forall b : bool, exists w : bool_y_n.t,
      bool_y_n.__init__ (PyBool b) = Ok w /\ bool_y_n.__bool__ w = b)
  /\ bool_y_n.__bool__ (with_cuda self) = params.with_cuda a
  /\ bool_y_n.__bool__ (cuda_with_tensorrt self) = params.cuda_with_tensorrt a
  /\ bool_y_n.__bool__ (with_mpi self) = params.with_mpi a
  /\ bool_y_n.__bool__ (cuda_with_clang self) = params.cuda_with_clang a
  /\ (exists rest,
        prompts (params.with_cuda a) (params.cuda_with_tensorrt a)
          (params.with_mpi a) = expected (io s') ++ rest)
  /\ match r with
     | Ok _ =>
         expected (io s') =
           prompts (params.with_cuda a) (params.cuda_with_tensorrt a)
             (params.with_mpi a)
     | Raise e => interaction_fault e = true
     end.
Proof.
  intros Hinit Hrun. apply init_ok_iff in Hinit. destruct Hinit as [Hacc ->].
  pose proof (run_outcome a r s' Hacc Hrun) as Hr.
  pose proof (dialogue_built a Hacc) as Hp.
  assert (Hb : forall b : bool, bool_y_n.__bool__ (wrap_bool b) = b)
    by (intros []; reflexivity).
  split.
  { intros b. exists (wrap_bool b). split; [apply bool_y_n_init_bool|apply Hb]. }
  cbn [built with_cuda cuda_with_tensorrt with_mpi cuda_with_clang].
  rewrite !Hb. repeat split.
  - destruct r as [[]|e].
    + exists []. now rewrite Hr, Hp, app_nil_r.
    + destruct Hr as (rest & Hrest & _). exists (expected rest).
      now rewrite <- Hp, Hrest, expected_app.
  - destruct r as [[]|e].
    + now rewrite Hr.
    + destruct Hr as (rest & _ & Hr). exact (stop_shape_fault _ _ _ Hr).
Qed.

End Claims.

(** * The claims on the test benches *)

(** C1 on the replayed minimal transcript. *)
Lemma run_minimal_configuration_witness :
  minimal minimal_params = true
  /\ @path_exists lab (params.command minimal_params) = true
  /\ @path_exists lab
       ("/usr/bin/python" ++ params.python_version minimal_params) = true
  /\ @path_exists lab
       (dist_packages (params.python_version minimal_params)) = true
  /\ @spawn_child lab (params.command minimal_params)
     = Some (prompts false false false)
  /\ @shows lab (prompts false false false)
       (minimal_dialogue minimal_params) = true
  /\ exists (self : t) (s' : @state lab),
       @__init__ lab minimal_params = Ok self
       /\ @run lab self fresh = (Ok tt, s')
       /\ @main lab minimal_params fresh = (Ok tt, s')
       /\ io s' = minimal_dialogue minimal_params.
Proof.
  do 6 (split; [vm_compute; reflexivity|]).
  apply (@run_minimal_configuration lab minimal_params
           (prompts false false false));
    vm_compute; reflexivity.
Defined.

(** C2 as amended, on a cuDNN path that does not exist. *)
Lemma init_names_unusable_gpu_field_witness :
  params.with_cuda dangling_cudnn_params = true
  /\ @path_exists gpu_lab (params.command dangling_cudnn_params) = true
  /\ params.with_opencl_sycl dangling_cudnn_params = false
  /\ params.cuda_with_clang dangling_cudnn_params = false
  /\ required dangling_cudnn_params F_cuda_cudnn_path = true
  /\ @unusable gpu_lab dangling_cudnn_params F_cuda_cudnn_path = true
  /\ exists (g : gpu_field) (msg : string),
       first_failing (@gpu_checks gpu_lab dangling_cudnn_params)
       = Some (g, msg)
       /\ @__init__ gpu_lab dangling_cudnn_params = Raise (AssertionError msg)
       /\ (forall s, @main gpu_lab dangling_cudnn_params s
                     = (Raise (AssertionError msg), s))
       /\ required dangling_cudnn_params g = true
       /\ @unusable gpu_lab dangling_cudnn_params g = true
       /\ startswith msg (field_name g) = true
       /\ ((forall f',
              required dangling_cudnn_params f' = true ->
              @unusable gpu_lab dangling_cudnn_params f' = true ->
              f' = F_cuda_cudnn_path)
           -> g = F_cuda_cudnn_path).
Proof.
  do 6 (split; [vm_compute; reflexivity|]).
  apply (@init_names_unusable_gpu_field gpu_lab dangling_cudnn_params
           F_cuda_cudnn_path);
    vm_compute; reflexivity.
Defined.

(** C2 as stated fails twice: an empty CUDA version is accepted, and a
    missing command is reported instead of a missing CUDA version. *)
Lemma init_accepts_empty_cuda_version :
  (params.with_cuda empty_version_params = true
   /\ params.cuda_version empty_version_params = Some ""
   /\ @__init__ gpu_lab empty_version_params
      = Ok (built empty_version_params))
  /\ (params.with_cuda missing_command_params = true
      /\ params.cuda_version missing_command_params = None
      /\ @__init__ gpu_lab missing_command_params =
         Raise (AssertionError
                  "command must be a valid path to TensorFlow configure script")).
Proof. vm_compute. repeat split. Qed.

(** C3 with GPU parameters that are missing or dangling. *)
Lemma init_ignores_gpu_fields_without_cuda_witness :
  params.with_cuda no_cuda_params = false
  /\ @path_exists lab (params.command no_cuda_params) = true
  /\ params.with_opencl_sycl no_cuda_params = false
  /\ params.cuda_with_clang no_cuda_params = false
  /\ @mpi_ok lab no_cuda_params = true
  /\ @__init__ lab no_cuda_params = Ok (built no_cuda_params).
Proof.
  do 5 (split; [vm_compute; reflexivity|]).
  apply (@init_ignores_gpu_fields_without_cuda lab no_cuda_params);
    vm_compute; reflexivity.
Defined.

(** C4 as amended, with the SYCL flag and an existing command. *)
Lemma init_rejects_unimplemented_witness :
  (params.with_opencl_sycl sycl_params = true
   \/ params.cuda_with_clang sycl_params = true)
  /\ exists e : exn,
       @__init__ lab sycl_params = Raise e
       /\ (forall s, @main lab sycl_params s = (Raise e, s))
       /\ e = NotImplementedError "with_opencl_sycl=True is not implemented".
Proof.
  split; [left; reflexivity|].
  apply (@init_rejects_unimplemented lab sycl_params). left. reflexivity.
Defined.

(** C4 as stated fails: with the SYCL flag set and a command that does
    not exist, the error is the assertion on the command. *)
Lemma init_missing_command_comes_first :
  params.with_opencl_sycl sycl_missing_command_params = true
  /\ @__init__ lab sycl_missing_command_params =
     Raise (AssertionError
              "command must be a valid path to TensorFlow configure script")
  /\ forall msg, @__init__ lab sycl_missing_command_params
                 <> Raise (NotImplementedError msg).
Proof. vm_compute. repeat split. intros msg. discriminate. Qed.

(** C5 as amended, on a child that exits at once: [run] raises EOF and
    the handle is still open. *)
Lemma run_never_closes_child_witness :
  @spawn_child dead_lab (command (built minimal_params)) = Some []
  /\ @run dead_lab (built minimal_params) fresh
     = (Raise EOF, snd (@run dead_lab (built minimal_params) fresh))
  /\ exists h,
       script (snd (@run dead_lab (built minimal_params) fresh)) = Some h
       /\ closed h = false.
Proof.
  split; [reflexivity|]. split; [vm_compute; reflexivity|].
  apply (@run_never_closes_child dead_lab (built minimal_params) [] fresh
           (Raise EOF));
    vm_compute; reflexivity.
Defined.

(** C5 as stated fails: the minimal run completes and leaves the handle
    open. *)
Lemma run_completes_with_child_open :
  exists (s' : @state lab) (h : @spawn lab),
    @run lab (built minimal_params) fresh = (Ok tt, s')
    /\ script s' = Some h
    /\ closed h = false.
Proof. eexists. eexists. vm_compute. repeat split. Qed.

(** C6 as amended, on the flags of the help text. *)
Lemma opts_flags_str_trims_and_joins_witness :
  opts_flags (built gpu_params) = Some [" -march=native"; " -mavx2"]
  /\ opts_flags_str (built gpu_params) = "-march=native -mavx2".
Proof.
  split; [reflexivity|].
  apply (opts_flags_str_trims_and_joins (built gpu_params)
           (Some [" -march=native"; " -mavx2"]) eq_refl).
  reflexivity.
Defined.

(** C6 as stated fails: the result has no leading and no doubled space. *)
Lemma opts_flags_str_drops_leading_spaces :
  opts_flags (built gpu_params) = Some [" -march=native"; " -mavx2"]
  /\ opts_flags_str (built gpu_params) <> " -march=native  -mavx2".
Proof. split; [reflexivity|]. vm_compute. discriminate. Qed.

(** C8 on the capabilities of the help text. *)
Lemma cuda_capabilities_str_trims_and_joins_witness :
  cuda_capabilities (built gpu_params) = Some ["3.5"; " 5.2 "]
  /\ cuda_capabilities_str (built gpu_params) = Ok "3.5,5.2".
Proof.
  split; [reflexivity|].
  apply (cuda_capabilities_str_trims_and_joins (built gpu_params)
           ["3.5"; " 5.2 "] eq_refl).
  reflexivity.
Defined.



(** C10 on a complete GPU run. *)
Lemma branches_follow_the_flags_witness :
  @__init__ gpu_lab gpu_params = Ok (built gpu_params)
  /\ @run gpu_lab (built gpu_params) fresh
     = (Ok tt, snd (@run gpu_lab (built gpu_params) fresh))
  /\ expected (io (snd (@run gpu_lab (built gpu_params) fresh)))
     = prompts true true true.
Proof.
  split; [vm_compute; reflexivity|]. split; [vm_compute; reflexivity|].
  apply (@branches_follow_the_flags gpu_lab gpu_params (built gpu_params)
           (Ok tt) (snd (@run gpu_lab (built gpu_params) fresh)));
    vm_compute; reflexivity.
Defined.

(** * Further properties *)

(** ** Strings *)

Lemma lstrip_fixed (s : string) :
  not_space (first_char s) = true -> lstrip s = s.
Proof.
  destruct s as [|c s]; cbn; [reflexivity|].
  destruct (isspace c); [discriminate|reflexivity].
Qed.

Lemma rstrip_idempotent (s : string) : rstrip (rstrip s) = rstrip s.
Proof.
  induction s as [|c s IH]; [reflexivity|].
  cbn [rstrip]. destruct (rstrip s) as [|d r] eqn:E.
  - destruct (isspace c) eqn:F; [reflexivity|].
    cbn. now rewrite F.
  - cbn [rstrip] in IH |- *. rewrite IH. reflexivity.
Qed.

Lemma strip_idempotent (s : string) : strip (strip s) = strip s.
Proof.
  unfold strip.
  destruct (lstrip_spec s) as (l & _ & _ & Hfirst).
  rewrite (lstrip_fixed (rstrip (lstrip s))).
  - apply rstrip_idempotent.
  - apply rstrip_first_char, Hfirst.
Qed.

Lemma map_strip_idempotent (l : list string) :
  map strip (map strip l) = map strip l.
Proof.
  induction l as [|x l IH]; cbn; [reflexivity|].
  now rewrite strip_idempotent, IH.
Qed.
(** X1.  Among the booleans, the integers, the floats, the strings and
    [None], [bool_y_n] takes the values that compare equal to [True] or
    to [False] and no other: every boolean, the integers 1 and 0, the
    floats 1.0, 0.0 and -0.0.  Any other integer or float, a string or
    [None] fails its assertion. *)
Theorem bool_y_n_init_domain (v : pyval) :
  bool_y_n.__init__ v =
  if boolean_like v
  then Ok {| bool_y_n.value := v |}
  else Raise (AssertionError "bool_y_n __init__ only supports True or False").
Proof.
  destruct v as [[]|z|f| |]; try reflexivity.
  - unfold bool_y_n.__init__, py_in, boolean_like. cbn.
    rewrite orb_false_r, (orb_comm (Z.eqb z 1)).
    destruct (Z.eqb z 0 || Z.eqb z 1); reflexivity.
  - unfold bool_y_n.__init__, py_in, boolean_like. cbn.
    rewrite orb_false_r, (orb_comm (PrimFloat.eqb f 1)).
    destruct (PrimFloat.eqb f 0 || PrimFloat.eqb f 1); reflexivity.
Qed.

(** X2.  Trimming the flags beforehand changes nothing: [opts_flags_str]
    is the same on the flags and on the trimmed flags. *)
Theorem opts_flags_str_ignores_padding (self self' : t) :
  opts_flags self' = option_map (map strip) (opts_flags self) ->
  opts_flags_str self' = opts_flags_str self.
Proof.
  unfold opts_flags_str. intros ->.
  destruct (opts_flags self) as [l|]; cbn; [|reflexivity].
  now rewrite map_strip_idempotent.
Qed.

(** X3.  Likewise [cuda_capabilities_str] is the same on the capabilities
    and on the trimmed capabilities. *)
Theorem cuda_capabilities_str_ignores_padding (self self' : t) :
  cuda_capabilities self' = option_map (map strip) (cuda_capabilities self) ->
  cuda_capabilities_str self' = cuda_capabilities_str self.
Proof.
  unfold cuda_capabilities_str. intros ->.
  destruct (cuda_capabilities self) as [l|]; cbn; [|reflexivity].
  now rewrite map_strip_idempotent.
Qed.

Section MoreConstructor.
Context `{Platform}.

(** X4.  [python_dist_path] looks at the version only to tell the 2.x
    line from the rest: two objects whose versions both do not start with
    "2." get the same result, whatever the versions are. *)
Theorem python_dist_path_ignores_other_versions (self self' : t) :
  startswith (python_version self) "2." = false ->
  startswith (python_version self') "2." = false ->
  python_dist_path self = python_dist_path self'.
Proof.
  intros E E'. unfold python_dist_path. rewrite E, E'. reflexivity.
Qed.

(** X5.  Construction succeeds exactly when rules 1 to 6 hold, and then
    gives the parameters back unchanged, each flag wrapped; when they do
    not hold it raises, and [main] stops there with the session
    untouched. *)
Theorem init_succeeds_exactly (a : params.t) :
  (accepts a = true -> __init__ a = Ok (built a))
  /\ (accepts a = false ->
      exists e, __init__ a = Raise e /\ forall s, main a s = (Raise e, s)).
Proof.
  split.
  - intros Hacc. now apply init_ok_iff.
  - intros Hrej. destruct (__init__ a) as [self|e] eqn:E.
    + apply init_ok_iff in E. destruct E as [Hacc _]. congruence.
    + exists e. split; [reflexivity|]. intros s. now apply main_rejected.
Qed.

Ltac raised :=
  let K := fresh "K" in
  intros K; injection K as <-; cbn; tauto.

(** X6.  Whatever [__init__] raises is the exception of one of its
    seventeen checks.  It never raises TypeError ([os.path.exists] is
    never given [None]) and never the second assertion on
    [cuda_gcc_path], whose message speaks of [cuda_with_clang]. *)
Theorem init_raises_only (a : params.t) (e : exn) :
  __init__ a = Raise e ->
  In e init_errors
  /\ (forall msg, e <> TypeError msg)
  /\ e <> AssertionError "cuda_gcc_path must be set if cuda_with_clang=True".
Proof.
  intros Hr.
  assert (Hin : In e init_errors).
  { revert Hr. unfold __init__. rewrite !bool_y_n_init_bool.
    destruct a as [cmd ver jm gcp hdfs s3 kafka xla gdr verbs sycl cuda
                   fclang mpi cver cpath dver dpath trt tpath nccl caps
                   clang gcc mpath opts]; cbn.
    destruct (path_exists cmd); cbn; [|raised].
    destruct sycl; cbn; [raised|]. destruct clang; cbn; [raised|].
    assert (Fin : forall x : t,
      (rbind (if mpi then
         rbind (assert_ (is_not_None mpath)
                  "mpi_path must be set if with_mpi=True")
          (fun _ => rbind (os_path_exists mpath)
             (fun e0 => assert_ e0 "mpi_path is set a non existing folder"))
         else Ok tt) (fun _ => Ok x) = Raise e) ->
      In e init_errors).
    { intros x. destruct mpi; cbn; [|discriminate].
      destruct mpath as [p|]; cbn; [|raised].
      destruct (path_exists p); cbn; [discriminate|raised]. }
    destruct cuda; cbn; [|apply Fin].
    destruct cver; cbn; [|raised]. destruct cpath as [p2|]; cbn; [|raised].
    destruct dver; cbn; [|raised]. destruct dpath as [p4|]; cbn; [|raised].
    destruct nccl; cbn; [|raised]. destruct caps; cbn; [|raised].
    destruct gcc as [p7|]; cbn; [|raised].
    destruct (path_exists p2); cbn; [|raised].
    destruct (path_exists p4); cbn; [|raised].
    destruct (path_exists p7); cbn; [|raised].
    destruct trt; cbn; [|apply Fin].
    destruct tpath as [p8|]; cbn; [|raised].
    destruct (path_exists p8); cbn; [apply Fin|raised]. }
  split; [exact Hin|].
  cbn in Hin.
  repeat match type of Hin with
         | _ \/ _ => destruct Hin as [<-|Hin]
         end;
    try contradiction; split; try discriminate; intros ?; discriminate.
Qed.

(** X7.  When [with_mpi] is set and rules 1 to 5 hold, an MPI path that
    is [None] or does not exist makes construction fail with an
    AssertionError that begins with "mpi_path", and [main] stops there
    with the session untouched: no child is spawned. *)
Theorem init_names_unusable_mpi_path (a : params.t) :
  path_exists (params.command a) = true ->
  params.with_opencl_sycl a = false ->
  params.cuda_with_clang a = false ->
  (if params.with_cuda a then gpu_ok a else true) = true ->
  params.with_mpi a = true ->
  on_disk (params.mpi_path a) = false ->
  exists msg : string,
    __init__ a = Raise (AssertionError msg)
    /\ (forall s, main a s = (Raise (AssertionError msg), s))
    /\ startswith msg "mpi_path" = true
    /\ msg = (if is_None (params.mpi_path a)
              then "mpi_path must be set if with_mpi=True"
              else "mpi_path is set a non existing folder").
Proof.
  intros Hcmd Hsycl Hclang Hgpu Hmpi Hpath.
  assert (E : __init__ a =
    Raise (AssertionError
             (if is_None (params.mpi_path a)
              then "mpi_path must be set if with_mpi=True"
              else "mpi_path is set a non existing folder"))).
  { revert Hcmd Hsycl Hclang Hgpu Hmpi Hpath.
    unfold __init__. rewrite !bool_y_n_init_bool.
    destruct a as [cmd ver jm gcp hdfs s3 kafka xla gdr verbs sycl cuda
                   fclang mpi cver cpath dver dpath trt tpath nccl caps
                   clang gcc mpath opts]; cbn.
    intros Hcmd -> -> Hgpu -> Hpath. rewrite Hcmd. cbn.
    assert (Fin : forall x : t,
      rbind
        (rbind (assert_ (is_not_None mpath)
                  "mpi_path must be set if with_mpi=True")
           (fun _ => rbind (os_path_exists mpath)
              (fun e => assert_ e "mpi_path is set a non existing folder")))
        (fun _ => Ok x)
      = Raise (AssertionError
                 (if is_None mpath
                  then "mpi_path must be set if with_mpi=True"
                  else "mpi_path is set a non existing folder"))).
    { intros x. destruct mpath as [p|]; cbn in Hpath |- *; [|reflexivity].
      rewrite Hpath. reflexivity. }
    destruct cuda; [|apply Fin].
    unfold gpu_ok in Hgpu. cbn in Hgpu. split_andb.
    repeat match goal with
           | K : is_not_None ?o = true |- _ =>
               destruct o; [clear K | discriminate K]
           end.
    cbn in *.
    repeat match goal with
           | K : path_exists _ = true |- _ => rewrite K; clear K
           end.
    cbn. destruct trt; cbn; [|apply Fin].
    destruct tpath as [p8|]; [|discriminate].
    cbn in *.
    repeat match goal with
           | K : path_exists _ = true |- _ => rewrite K; clear K
           end.
    apply Fin. }
  eexists. split; [exact E|].
  split; [intros s; apply main_rejected, E|].
  split; [destruct (params.mpi_path a); reflexivity | reflexivity].
Qed.

End MoreConstructor.

(** ** One prompt *)

Section MoreDriver.
Context `{Platform}.

(** X8.  What [_pexpect_line_answer] does on a session whose last match,
    if any, left bytes.  When these bytes are not valid UTF-8 it raises
    UnicodeDecodeError at once and the session is left as it was.
    Otherwise they are printed and the wait is made.  When the pattern
    matches, the answer, if any, is the only line written, and then the
    text before the match is printed and the call returns, unless that
    text is not valid UTF-8: then UnicodeDecodeError is raised, after the
    answer was written.  When the wait times out or meets the end of the
    stream the call raises TIMEOUT or EOF: nothing is written, and the
    text captured before the failure is stored in the handle but not
    printed. *)
Theorem line_answer_transition (q : pattern) (ans : option answer)
    (s : state) (h : spawn) :
  script s = Some h ->
  decodable (after h) = true ->
  match echoed (after h) (stdout s) with
  | None =>
      exists a0,
        after h = Some (AfterBytes a0)
        /\ _pexpect_line_answer q ans s
           = (Raise (UnicodeDecodeError "utf-8" a0), s)
  | Some out =>
      match child_expect (proc h) q with
      | Matched b a c =>
          exists s' h',
            _pexpect_line_answer q ans s
            = (match utf8_decode b with
               | Some _ => Ok tt
               | None => Raise (UnicodeDecodeError "utf-8" b)
               end, s')
            /\ io s' = io s ++ EvExpect q :: sent ans
            /\ stdout s' = match utf8_decode b with
                           | Some t => out ++ [t]
                           | None => out
                           end
            /\ script s' = Some h'
            /\ proc h' = child_sent c ans
            /\ before h' = Some b
            /\ after h' = Some (match q with
                                | Re _ => AfterBytes a
                                | PEOF => AfterEOF
                                end)
      | TimedOut b c =>
          exists s' h',
            _pexpect_line_answer q ans s = (Raise TIMEOUT, s')
            /\ io s' = io s ++ [EvExpect q]
            /\ stdout s' = out
            /\ script s' = Some h'
            /\ proc h' = c
            /\ before h' = Some b
            /\ after h' = Some AfterTIMEOUT
      | Ended b c =>
          exists s' h',
            _pexpect_line_answer q ans s = (Raise EOF, s')
            /\ io s' = io s ++ [EvExpect q]
            /\ stdout s' = out
            /\ script s' = Some h'
            /\ proc h' = c
            /\ before h' = Some b
            /\ after h' = Some AfterEOF
      end
  end.
Proof.
  intros Hs Hd. destruct s as [sc out ev]; cbn in Hs; subst sc.
  destruct h as [c t b0 a0 cl]; cbn in Hd.
  unfold _pexpect_line_answer, pexpect.expect, pexpect.sendline, bind,
    get_script, emit, set_script, print, lift, ret, raise, decode,
    bytes_decode, echoed; cbn.
  destruct a0 as [[a0| |]|]; try discriminate; cbn;
    try (destruct (utf8_decode a0) as [t0|]; cbn;
         [|eexists; split; reflexivity]);
    destruct (child_expect c q) as [b a c'|b c'|b c']; cbn;
    destruct ans; cbn; try destruct (utf8_decode b); cbn;
    eexists; eexists; (split; [reflexivity|]); cbn;
    rewrite <- ?app_assoc; repeat split.
Qed.

(** X9.  Without a spawned child, or right after a wait that met the end
    of the stream or timed out, [_pexpect_line_answer] raises
    AttributeError before it waits: the session is left as it was. *)
Theorem line_answer_needs_echoable_session (q : pattern)
    (ans : option answer) (s : state) :
  match script s with
  | None => true
  | Some h => negb (decodable (after h))
  end = true ->
  exists msg, _pexpect_line_answer q ans s = (Raise (AttributeError msg), s).
Proof.
  intros Hs. unfold _pexpect_line_answer, bind, get_script, lift.
  destruct (script s) as [h|]; [|eexists; reflexivity].
  destruct (after h) as [[t| |]|]; try discriminate;
    cbn; eexists; reflexivity.
Qed.

(** ** Whole runs *)

(** X10.  For every accepted configuration, whatever its flags: when the
    interpreter paths exist, the command can be spawned and the child
    shows every prompt of the dialogue, in valid UTF-8, [run] returns
    normally and its events are exactly the dialogue (section 4.3, with
    the GPU, TensorRT and MPI prompts where the flags ask for them). *)
Theorem run_completes_with_dialogue (a : params.t) (c0 : child) :
  accepts a = true ->
  path_exists ("/usr/bin/python" ++ params.python_version a) = true ->
  path_exists (dist_packages (params.python_version a)) = true ->
  spawn_child (params.command a) = Some c0 ->
  shows c0 (dialogue (built a)) = true ->
  exists s' : state,
    run (built a) fresh = (Ok tt, s')
    /\ main a fresh = (Ok tt, s')
    /\ io s' = dialogue (built a).
Proof.
  intros Hacc Hbin Hlib Hspawn Hshow.
  assert (Hinit : __init__ a = Ok (built a)) by (now apply init_ok_iff).
  assert (T : triple (fun s => io s = []) (run (built a))
                (fun _ => halted (dialogue (built a))) (fun _ _ => False)).
  { clear Hinit.
    destruct a as [cmd ver jm gcp hdfs s3 kafka xla gdr verbs sycl cuda
                   fclang mpi cver cpath dver dpath trt tpath nccl caps
                   clang gcc mpath opts].
    unfold accepts, gpu_ok, mpi_ok in Hacc. cbn in Hacc, Hbin, Hlib, Hspawn.
    unfold run. rewrite python_bin_path_eval, python_dist_path_eval.
    destruct cuda; [destruct trt|]; destruct mpi; split_andb;
      destruct sycl, clang; try discriminate; known_fields;
      cbn; rewrite Hbin, Hlib; matches Hshow; walk_matched. }
  destruct (run (built a) fresh) as [r s'] eqn:Hrun.
  pose proof (triple_run _ _ _ _ fresh _ _ T eq_refl Hrun) as Hend.
  destruct r as [[]|e]; [|contradiction].
  exists s'. repeat split.
  - unfold main, bind, lift. rewrite Hinit. exact Hrun.
  - apply io_of_halted in Hend. exact Hend.
Qed.

(** X11.  The interpreter binary is looked for only once the child is
    spawned: when it does not exist, [run] spawns the command, sets the
    timeout, and raises the AssertionError without waiting for any
    prompt; the child is left open. *)
Theorem run_checks_interpreter_after_spawn (self : t) (c0 : child)
    (s : state) :
  spawn_child (command self) = Some c0 ->
  path_exists ("/usr/bin/python" ++ python_version self) = false ->
  exists s' : state,
    run self s =
      (Raise (AssertionError
                (("/usr/bin/python" ++ python_version self)
                 ++ " does not exist")), s')
    /\ io s' = io s ++ [EvSpawn (command self)]
    /\ stdout s' = stdout s
    /\ script s' = Some {| proc := c0; timeout := 2; before := None;
                           after := None; closed := false |}.
Proof.
  intros Hspawn Hbin.
  unfold run, bind, pexpect.spawn_. rewrite Hspawn.
  rewrite python_bin_path_eval, Hbin. cbn.
  eexists. repeat split.
Qed.
Lemma triple_ask_garbled (q : pattern) (ans : option answer) tr c b a c'
    (E : exn -> state -> Prop) :
  child_expect c q = Matched b a c' ->
  decodes b = false ->
  (forall s, halted (tr ++ EvExpect q :: sent ans) s ->
   E (UnicodeDecodeError "utf-8" b) s) ->
  triple (ready tr c) (_pexpect_line_answer q ans) (fun _ _ => False) E.
Proof.
  intros Hm Hb HE s (o & Hs & Ho).
  pose proof (ask_outcome q ans tr c o s Hs Ho) as Hq.
  rewrite Hm in Hq. destruct Hq as (s' & -> & Hs').
  unfold decodes in Hb. destruct (utf8_decode b); [discriminate|].
  apply HE. exact (halted_of_session _ _ _ _ Hs').
Qed.

(** X12.  The interpreter library path is looked for only after the first
    prompt is answered: when the binary exists, the first prompt matches
    and the library path does not exist, [run] has sent the binary path
    and then stops before the second wait, the child left open.  It stops
    with the AssertionError on the library path when the text before the
    first prompt is valid UTF-8; when it is not, the echo of that text
    comes first and raises UnicodeDecodeError. *)
Theorem run_checks_library_after_first_answer (self : t) (c0 c1 : child)
    (b a : string) (s : state) :
  spawn_child (command self) = Some c0 ->
  path_exists ("/usr/bin/python" ++ python_version self) = true ->
  child_expect c0 q_python_bin = Matched b a c1 ->
  path_exists (dist_packages (python_version self)) = false ->
  exists s' : state,
    run self s =
      (Raise (if decodes b
              then AssertionError
                     (dist_packages (python_version self) ++ " does not exist")
              else UnicodeDecodeError "utf-8" b),
       s')
    /\ io s' = io s ++ [EvSpawn (command self); EvExpect q_python_bin;
                        EvSendline ("/usr/bin/python" ++ python_version self)]
    /\ handle_open s'.
Proof.
  intros Hspawn Hbin Hmatch Hlib.
  assert (T : triple (fun s0 => io s0 = io s) (run self)
                (fun _ _ => False)
                (fun e s' =>
                   e = (if decodes b
                        then AssertionError
                               (dist_packages (python_version self)
                                ++ " does not exist")
                        else UnicodeDecodeError "utf-8" b)
                   /\ io s' = io s ++ [EvSpawn (command self);
                                       EvExpect q_python_bin;
                                       EvSendline ("/usr/bin/python"
                                                   ++ python_version self)]
                   /\ handle_open s')).
  { assert (Hstop : forall s1,
              halted ((io s ++ [EvSpawn (command self)])
                      ++ EvExpect q_python_bin
                         :: sent (Some (AStr ("/usr/bin/python"
                                              ++ python_version self)))) s1 ->
              io s1 = io s ++ [EvSpawn (command self); EvExpect q_python_bin;
                               EvSendline ("/usr/bin/python"
                                           ++ python_version self)]
              /\ handle_open s1).
    { intros s1 Hs1. split.
      - apply io_of_halted in Hs1. rewrite Hs1. cbn.
        rewrite <- app_assoc. reflexivity.
      - exact (open_of_halted _ _ Hs1). }
    unfold run. rewrite python_bin_path_eval, python_dist_path_eval.
    rewrite Hbin, Hlib. unfold q_python_bin in Hmatch.
    eapply triple_bind; [eapply triple_spawn_ok; eassumption | intros ?].
    eapply triple_bind; [apply triple_set_timeout | intros ?].
    apply triple_lift_ok.
    destruct (decodes b) eqn:Hb.
    - eapply triple_bind;
        [eapply triple_ask_matched_end; [reflexivity|eassumption|assumption]
        | intros ?].
      apply triple_lift_raise. intros s1 Hs1.
      split; [reflexivity | exact (Hstop s1 Hs1)].
    - eapply triple_bind;
        [eapply triple_ask_garbled; [eassumption|assumption|] | intros ? ? []].
      intros s1 Hs1. split; [reflexivity | exact (Hstop s1 Hs1)]. }
  destruct (run self s) as [r s'] eqn:Hrun.
  pose proof (triple_run _ _ _ _ s _ _ T eq_refl Hrun) as Hend.
  destruct r as [[]|e]; [contradiction|].
  destruct Hend as (-> & Hio & Hopen).
  exists s'. repeat split; assumption.
Qed.

End MoreDriver.

Section Traces.
Context `{Platform}.

(** X13.  Whatever the child does, the events of a run of a constructed
    object are a beginning of its dialogue: the prompts are waited for in
    that order, each matched prompt gets the answer the dialogue gives it
    and no other line is written. *)
Theorem run_stays_within_dialogue (a : params.t) (self : t)
    (r : result unit) (s' : state) :
  __init__ a = Ok self ->
  run self fresh = (r, s') ->
  exists rest, dialogue self = io s' ++ rest.
Proof.
  intros Hinit Hrun. apply init_ok_iff in Hinit. destruct Hinit as [Hacc ->].
  pose proof (run_outcome a r s' Hacc Hrun) as Hend.
  destruct r as [[]|e].
  - exists []. rewrite Hend, app_nil_r. reflexivity.
  - destruct Hend as (rest & Hrest & _). exists rest. exact Hrest.
Qed.

(** X14.  Where a run of a constructed object stops when it does not
    complete.  On TIMEOUT or EOF the last event is the wait that failed:
    the answer to that prompt is not written.  An AssertionError comes
    from an interpreter path, before the second wait.  A spawn error
    comes before any event.  UnicodeDecodeError, for the codec utf-8,
    comes after a wait at least, and never between a wait and the answer
    to it: what is left of the dialogue does not begin with an answer.
    Such a run never ends with NotImplementedError, TypeError or
    AttributeError. *)
Theorem run_stops_at_the_failed_wait (a : params.t) (self : t)
    (e : exn) (s' : state) :
  __init__ a = Ok self ->
  run self fresh = (Raise e, s') ->
  match e with
  | TIMEOUT | EOF => exists tr q, io s' = tr ++ [EvExpect q]
  | AssertionError _ => List.length (expected (io s')) <= 1
  | ExceptionPexpect _ => io s' = []
  | UnicodeDecodeError encoding _ =>
      encoding = "utf-8"
      /\ 1 <= List.length (expected (io s'))
      /\ exists rest,
           dialogue self = io s' ++ rest
           /\ match rest with
              | EvSendline _ :: _ => False
              | _ => True
              end
  | NotImplementedError _ | TypeError _ | AttributeError _ => False
  end.
Proof.
  intros Hinit Hrun. apply init_ok_iff in Hinit. destruct Hinit as [Hacc ->].
  pose proof (run_outcome a _ s' Hacc Hrun) as Hend.
  destruct Hend as (rest & Hrest & Hshape).
  destruct e; unfold stop_shape in Hshape; try discriminate.
  - now apply Nat.leb_le.
  - destruct (io s'); [reflexivity|discriminate].
  - now apply ends_with_wait_sound.
  - now apply ends_with_wait_sound.
  - apply andb_prop in Hshape. destruct Hshape as [Hshape Hrest'].
    apply andb_prop in Hshape. destruct Hshape as [Henc Hlen].
    apply String.eqb_eq in Henc. apply Nat.leb_le in Hlen.
    split; [exact Henc|]. split; [exact Hlen|].
    exists rest. split; [exact Hrest|].
    destruct rest as [|[c|q|x] rest]; try exact I. discriminate Hrest'.
Qed.

(** ** The timeout *)

Lemma timeout_kept_expect (t : Z) (q : pattern) :
  triple (timeout_is t) (pexpect.expect q)
    (fun _ => timeout_is t) (fun _ => timeout_is t).
Proof.
  intros s (h & Hs & Ht).
  unfold pexpect.expect, bind, get_script, emit, set_script, raise.
  rewrite Hs. cbn.
  destruct (child_expect (proc h) q); cbn; eexists; cbn; split;
    try reflexivity; exact Ht.
Qed.

Lemma timeout_kept_sendline (t : Z) (a : answer) :
  triple (timeout_is t) (pexpect.sendline a)
    (fun _ => timeout_is t) (fun _ => timeout_is t).
Proof.
  intros s (h & Hs & Ht).
  unfold pexpect.sendline, bind, get_script, emit, set_script.
  rewrite Hs. cbn. eexists. cbn. split; [reflexivity | exact Ht].
Qed.

Lemma timeout_kept_print (t : Z) (t0 : text) :
  triple (timeout_is t) (print t0)
    (fun _ => timeout_is t) (fun _ => timeout_is t).
Proof. intros s Hs. exact Hs. Qed.

Lemma timeout_kept_pure {A} (t : Z) (m : M A) :
  (forall s, snd (m s) = s) ->
  triple (timeout_is t) m (fun _ => timeout_is t) (fun _ => timeout_is t).
Proof.
  intros Hm s Hs. specialize (Hm s).
  destruct (m s) as [[a|e] s1]; cbn in Hm; subst s1; exact Hs.
Qed.

End Traces.

Ltac timeout_kept rule :=
  repeat first
    [ apply timeout_kept_expect
    | apply timeout_kept_sendline
    | apply timeout_kept_print
    | apply rule
    | eapply triple_bind; [|intros ?]
    | apply timeout_kept_pure; intros ?;
      solve [ reflexivity
            | unfold get_script; destruct (script _); reflexivity
            | unfold lift; reflexivity ]
    | match goal with
      | |- triple _ (match ?x with _ => _ end) _ _ => destruct x
      end ].

Section Timeout.
Context `{Platform}.

Lemma timeout_kept_line_answer (t : Z) (q : pattern) (ans : option answer) :
  triple (timeout_is t) (_pexpect_line_answer q ans)
    (fun _ => timeout_is t) (fun _ => timeout_is t).
Proof.
  unfold _pexpect_line_answer. timeout_kept timeout_kept_expect.
Qed.

(** X15.  Once the command is spawned, every wait of [run] is made under
    the timeout of two seconds: [run] sets it before the first wait and
    no statement changes it afterwards, however the run ends. *)
Theorem run_keeps_timeout_two (self : t) (c0 : child) (s : state)
    (r : result unit) (s' : state) :
  spawn_child (command self) = Some c0 ->
  run self s = (r, s') ->
  exists h, script s' = Some h /\ timeout h = 2%Z.
Proof.
  intros Hspawn Hrun.
  assert (T : triple (fun _ => True) (run self)
                (fun _ => timeout_is 2) (fun _ => timeout_is 2)).
  { unfold run.
    eapply triple_bind with (Q := fun _ s0 => exists h, script s0 = Some h).
    - intros s0 _. unfold pexpect.spawn_. rewrite Hspawn. cbn.
      eexists. reflexivity.
    - intros _.
      eapply triple_bind with (Q := fun _ => timeout_is 2).
      + intros s0 [h Hs].
        unfold pexpect.set_timeout, bind, get_script, set_script.
        rewrite Hs. cbn. eexists. cbn. split; reflexivity.
      + intros _. timeout_kept timeout_kept_line_answer. }
  pose proof (triple_run _ _ _ _ s _ _ T I Hrun) as Hend.
  destruct r; exact Hend.
Qed.

End Timeout.

(** ** The command line and the unimplemented branch *)

Section CommandLine.
Context `{Platform}.

(** X16.  There is no [--with-verbs] option, so an object constructed
    from the command line always has [with_verbs] false, and every run
    started from the command line declines VERBS: wherever its trace
    waits for the VERBS prompt, either that wait is the last event or
    "N" is sent next; and a run that completes has waited for the VERBS
    prompt and sent "N" right after. *)
Theorem cli_never_enables_verbs (config : namespace.t) (r : result unit)
    (s' : state) :
  cli config fresh = (r, s') ->
  (forall self : t,
     __init__ (kwargs config) = Ok self ->
     bool_y_n.__bool__ (with_verbs self) = false
     /\ answer_line (AYN (with_verbs self)) = "N")
  /\ verbs_declined (io s')
  /\ (r = Ok tt ->
      exists pre post,
        io s' = pre ++ EvExpect q_verbs :: EvSendline "N" :: post).
Proof.
  intros Hcli. split.
  { intros self Hinit. apply init_ok_iff in Hinit. destruct Hinit as [_ ->].
    split; reflexivity. }
  unfold cli, main, bind, lift in Hcli.
  destruct (__init__ (kwargs config)) as [self|e] eqn:Hinit.
  - apply init_ok_iff in Hinit. destruct Hinit as [Hacc ->].
    pose proof (run_outcome _ r s' Hacc Hcli) as Hr.
    pose proof (dialogue_declines_verbs _ Hacc eq_refl) as Hd.
    split.
    + intros pre post Hio. destruct r as [[]|e].
      * rewrite Hr in Hio.
        destruct (follows_sound _ _ _ Hd pre post Hio) as [post' ->].
        right. eexists. reflexivity.
      * destruct Hr as (rest & Hrest & _).
        destruct (follows_in_prefix _ _ _ _ rest pre post Hd Hrest Hio)
          as [post' Hnext].
        destruct post as [|e1 post]; [left; reflexivity|].
        cbn in Hnext. injection Hnext as -> _. right. eexists. reflexivity.
    + intros ->. rewrite Hr.
      exists (firstn 19 (dialogue (built (kwargs config)))),
             (skipn 21 (dialogue (built (kwargs config)))).
      reflexivity.
  - injection Hcli as <- <-. split.
    + intros pre post Hio. destruct pre; discriminate Hio.
    + discriminate.
Qed.

End CommandLine.

Section Guard.
Context `{Platform}.

Lemma triple_any {A} (P : state -> Prop) (m : M A) :
  triple P m (fun _ _ => True) (fun _ _ => True).
Proof. intros s _. destruct (m s) as [[a|e] s']; exact I. Qed.

Lemma triple_never_returns_bind {A B} (m : M A) (k : A -> M B) :
  triple (fun _ => True) m (fun _ _ => False) (fun _ _ => True) ->
  triple (fun _ => True) (bind m k) (fun _ _ => False) (fun _ _ => True).
Proof.
  intros Hm. eapply triple_bind; [exact Hm|].
  intros a s [].
Qed.

Lemma triple_skip {A B} (m : M A) (k : A -> M B) :
  (forall a, triple (fun _ => True) (k a) (fun _ _ => False)
               (fun _ _ => True)) ->
  triple (fun _ => True) (bind m k) (fun _ _ => False) (fun _ _ => True).
Proof.
  intros Hk. eapply triple_bind; [apply triple_any|].
  intros a s _. exact (Hk a s I).
Qed.

End Guard.

(** Skips the statements before the branch that raises and enters it:
    the branch is the one block of statements in first position. *)
Ltac never_returns :=
  lazymatch goal with
  | |- triple _ (raise _) _ _ => intros ? _; exact I
  | |- triple _ (if true then raise _ else _) _ _ => intros ? _; exact I
  | |- triple _ (bind (if true then _ else _) _) _ _ =>
      apply triple_never_returns_bind; never_returns
  | |- triple _ (bind (bind _ _) _) _ _ =>
      apply triple_never_returns_bind; never_returns
  | |- triple _ (if true then ?m else _) _ _ =>
      change (triple (fun _ : state => True) m
                (fun _ _ => False) (fun _ _ => True));
      never_returns
  | |- triple _ (bind _ _) _ _ =>
      apply triple_skip; intros ?; never_returns
  end.

Section GuardedRun.
Context `{Platform}.

(** X17.  The guard in [run] itself: on an object whose [with_cuda] and
    [cuda_with_clang] are both true (which [__init__] never builds, but
    which assigning the attributes gives), [run] never returns normally:
    whatever the child does, it ends with an exception, at the latest
    the NotImplementedError raised once the clang prompt is answered. *)
Theorem run_with_clang_never_returns (self : t) (s : state)
    (r : result unit) (s' : state) :
  bool_y_n.__bool__ (with_cuda self) = true ->
  bool_y_n.__bool__ (cuda_with_clang self) = true ->
  run self s = (r, s') ->
  exists e, r = Raise e.
Proof.
  intros Hcuda Hclang Hrun.
  assert (T : triple (fun _ => True) (run self)
                (fun _ _ => False) (fun _ _ => True)).
  { unfold run. rewrite Hcuda, Hclang. never_returns. }
  pose proof (triple_run _ _ _ _ s _ _ T I Hrun) as Hend.
  destruct r as [[]|e]; [contradiction|]. exists e. reflexivity.
Qed.

End GuardedRun.

(** * The further properties on the test benches *)

(** X2 on the flags of the help text and the same flags trimmed. *)
Lemma opts_flags_str_ignores_padding_witness :
  opts_flags (built trimmed_params)
  = option_map (map strip) (opts_flags (built gpu_params))
  /\ opts_flags_str (built trimmed_params)
     = opts_flags_str (built gpu_params).
Proof.
  split; [reflexivity|].
  apply (opts_flags_str_ignores_padding (built gpu_params)
           (built trimmed_params)).
  reflexivity.
Defined.

(** X3 on the capabilities of the help text. *)
Lemma cuda_capabilities_str_ignores_padding_witness :
  cuda_capabilities (built trimmed_params)
  = option_map (map strip) (cuda_capabilities (built gpu_params))
  /\ cuda_capabilities_str (built trimmed_params)
     = cuda_capabilities_str (built gpu_params).
Proof.
  split; [reflexivity|].
  apply (cuda_capabilities_str_ignores_padding (built gpu_params)
           (built trimmed_params)).
  reflexivity.
Defined.

(** X4 on the versions 3.6 and 3.7. *)
Lemma python_dist_path_ignores_other_versions_witness :
  startswith (python_version (built minimal_params)) "2." = false
  /\ startswith (python_version (built (kwargs sample_namespace))) "2."
     = false
  /\ @python_dist_path lab (built minimal_params)
     = @python_dist_path lab (built (kwargs sample_namespace)).
Proof.
  split; [reflexivity|]. split; [reflexivity|].
  apply (@python_dist_path_ignores_other_versions lab); reflexivity.
Defined.

(** X6 on an MPI path that does not exist. *)
Lemma init_raises_only_witness :
  @__init__ lab dangling_mpi_params
  = Raise (AssertionError "mpi_path is set a non existing folder")
  /\ In (AssertionError "mpi_path is set a non existing folder") init_errors
  /\ (forall msg,
        AssertionError "mpi_path is set a non existing folder"
        <> TypeError msg)
  /\ AssertionError "mpi_path is set a non existing folder"
     <> AssertionError "cuda_gcc_path must be set if cuda_with_clang=True".
Proof.
  split; [vm_compute; reflexivity|].
  apply (@init_raises_only lab dangling_mpi_params).
  vm_compute. reflexivity.
Defined.

(** X7 on the same parameters. *)
Lemma init_names_unusable_mpi_path_witness :
  @path_exists lab (params.command dangling_mpi_params) = true
  /\ params.with_opencl_sycl dangling_mpi_params = false
  /\ params.cuda_with_clang dangling_mpi_params = false
  /\ (if params.with_cuda dangling_mpi_params
      then @gpu_ok lab dangling_mpi_params else true) = true
  /\ params.with_mpi dangling_mpi_params = true
  /\ @on_disk lab (params.mpi_path dangling_mpi_params) = false
  /\ exists msg : string,
       @__init__ lab dangling_mpi_params = Raise (AssertionError msg)
       /\ (forall s, @main lab dangling_mpi_params s
                     = (Raise (AssertionError msg), s))
       /\ startswith msg "mpi_path" = true
       /\ msg = "mpi_path is set a non existing folder".
Proof.
  do 6 (split; [vm_compute; reflexivity|]).
  apply (@init_names_unusable_mpi_path lab dangling_mpi_params);
    vm_compute; reflexivity.
Defined.

(** X8 on the first prompt of the minimal transcript. *)
Lemma line_answer_transition_witness :
  script lab_session = Some lab_handle
  /\ decodable (after lab_handle) = true
  /\ exists s' h',
       @_pexpect_line_answer lab q_python_bin
         (Some (AStr "/usr/bin/python3.6")) lab_session = (Ok tt, s')
       /\ io s' = [EvSpawn "./configure"; EvExpect q_python_bin;
                   EvSendline "/usr/bin/python3.6"]
       /\ stdout s' = [[]]
       /\ script s' = Some h'
       /\ proc h' = List.tl (prompts false false false)
       /\ before h' = Some ""
       /\ after h'
          = Some (AfterBytes "Please specify the location of python\..*").
Proof.
  split; [reflexivity|]. split; [reflexivity|].
  exact (@line_answer_transition lab q_python_bin
           (Some (AStr "/usr/bin/python3.6")) lab_session lab_handle
           eq_refl eq_refl).
Defined.

(** X9 before anything is spawned. *)
Lemma line_answer_needs_echoable_session_witness :
  match script (@fresh lab) with
  | None => true
  | Some h => negb (decodable (after h))
  end = true
  /\ exists msg,
       @_pexpect_line_answer lab q_python_bin None fresh
       = (Raise (AttributeError msg), fresh).
Proof.
  split; [reflexivity|].
  apply (@line_answer_needs_echoable_session lab). reflexivity.
Defined.

(** X10 on a complete run with CUDA, TensorRT and MPI. *)
Lemma run_completes_with_dialogue_witness :
  @accepts gpu_lab gpu_params = true
  /\ @path_exists gpu_lab
       ("/usr/bin/python" ++ params.python_version gpu_params) = true
  /\ @path_exists gpu_lab
       (dist_packages (params.python_version gpu_params)) = true
  /\ @spawn_child gpu_lab (params.command gpu_params)
     = Some (prompts true true true)
  /\ @shows gpu_lab (prompts true true true) (dialogue (built gpu_params))
     = true
  /\ exists s' : @state gpu_lab,
       @run gpu_lab (built gpu_params) fresh = (Ok tt, s')
       /\ @main gpu_lab gpu_params fresh = (Ok tt, s')
       /\ io s' = dialogue (built gpu_params).
Proof.
  do 5 (split; [vm_compute; reflexivity|]).
  apply (@run_completes_with_dialogue gpu_lab gpu_params
           (prompts true true true));
    vm_compute; reflexivity.
Defined.

(** X11 on a disk without the interpreter. *)
Lemma run_checks_interpreter_after_spawn_witness :
  @spawn_child no_python_lab (command (built minimal_params))
  = Some (prompts false false false)
  /\ @path_exists no_python_lab
       ("/usr/bin/python" ++ python_version (built minimal_params)) = false
  /\ exists s' : @state no_python_lab,
       @run no_python_lab (built minimal_params) fresh
       = (Raise (AssertionError "/usr/bin/python3.6 does not exist"), s')
       /\ io s' = [EvSpawn "./configure"]
       /\ stdout s' = []
       /\ script s'
          = Some (@Build_spawn no_python_lab (prompts false false false) 2
                    None None false).
Proof.
  split; [reflexivity|]. split; [vm_compute; reflexivity|].
  exact (@run_checks_interpreter_after_spawn no_python_lab
           (built minimal_params) (prompts false false false) fresh
           eq_refl eq_refl).
Defined.

(** X12 on a disk without the library directory. *)
Lemma run_checks_library_after_first_answer_witness :
  @spawn_child no_dist_lab (command (built minimal_params))
  = Some (prompts false false false)
  /\ @path_exists no_dist_lab
       ("/usr/bin/python" ++ python_version (built minimal_params)) = true
  /\ @child_expect no_dist_lab (prompts false false false) q_python_bin
     = Matched "" "Please specify the location of python\..*"
         (List.tl (prompts false false false))
  /\ @path_exists no_dist_lab
       (dist_packages (python_version (built minimal_params))) = false
  /\ exists s' : @state no_dist_lab,
       @run no_dist_lab (built minimal_params) fresh
       = (Raise (AssertionError
                   "/usr/lib/python3/dist-packages does not exist"), s')
       /\ io s' = [EvSpawn "./configure"; EvExpect q_python_bin;
                   EvSendline "/usr/bin/python3.6"]
       /\ handle_open s'.
Proof.
  do 4 (split; [vm_compute; reflexivity|]).
  exact (@run_checks_library_after_first_answer no_dist_lab
           (built minimal_params) (prompts false false false)
           (List.tl (prompts false false false)) ""
           "Please specify the location of python\..*" fresh
           eq_refl eq_refl eq_refl eq_refl).
Defined.

(** X13 on a child that exits at once. *)
Lemma run_stays_within_dialogue_witness :
  @__init__ dead_lab minimal_params = Ok (built minimal_params)
  /\ @run dead_lab (built minimal_params) fresh
     = (Raise EOF, snd (@run dead_lab (built minimal_params) fresh))
  /\ exists rest,
       dialogue (built minimal_params)
       = io (snd (@run dead_lab (built minimal_params) fresh)) ++ rest.
Proof.
  split; [vm_compute; reflexivity|]. split; [vm_compute; reflexivity|].
  apply (@run_stays_within_dialogue dead_lab minimal_params
           (built minimal_params) (Raise EOF));
    vm_compute; reflexivity.
Defined.

(** X14 on the same run. *)
Lemma run_stops_at_the_failed_wait_witness :
  @__init__ dead_lab minimal_params = Ok (built minimal_params)
  /\ @run dead_lab (built minimal_params) fresh
     = (Raise EOF, snd (@run dead_lab (built minimal_params) fresh))
  /\ exists tr q,
       io (snd (@run dead_lab (built minimal_params) fresh))
       = tr ++ [EvExpect q].
Proof.
  split; [vm_compute; reflexivity|]. split; [vm_compute; reflexivity|].
  apply (@run_stops_at_the_failed_wait dead_lab minimal_params
           (built minimal_params) EOF);
    vm_compute; reflexivity.
Defined.

(** X15 on the same run. *)
Lemma run_keeps_timeout_two_witness :
  @spawn_child dead_lab (command (built minimal_params)) = Some []
  /\ @run dead_lab (built minimal_params) fresh
     = (Raise EOF, snd (@run dead_lab (built minimal_params) fresh))
  /\ exists h,
       script (snd (@run dead_lab (built minimal_params) fresh)) = Some h
       /\ timeout h = 2%Z.
Proof.
  split; [reflexivity|]. split; [vm_compute; reflexivity|].
  apply (@run_keeps_timeout_two dead_lab (built minimal_params) [] fresh
           (Raise EOF));
    vm_compute; reflexivity.
Defined.

(** X16 on a command line that asks for CUDA. *)
Lemma cli_never_enables_verbs_witness :
  @cli cuda_lab sample_namespace fresh
  = (Ok tt, snd (@cli cuda_lab sample_namespace fresh))
  /\ (forall self : t,
        @__init__ cuda_lab (kwargs sample_namespace) = Ok self ->
        bool_y_n.__bool__ (with_verbs self) = false
        /\ answer_line (AYN (with_verbs self)) = "N")
  /\ verbs_declined (io (snd (@cli cuda_lab sample_namespace fresh)))
  /\ (Ok tt = Ok tt ->
      exists pre post,
        io (snd (@cli cuda_lab sample_namespace fresh))
        = pre ++ EvExpect q_verbs :: EvSendline "N" :: post).
Proof.
  split; [vm_compute; reflexivity|].
  apply (@cli_never_enables_verbs cuda_lab sample_namespace (Ok tt)
           (snd (@cli cuda_lab sample_namespace fresh))).
  vm_compute. reflexivity.
Defined.

(** X17 on a child that shows every GPU prompt. *)
Lemma run_with_clang_never_returns_witness :
  bool_y_n.__bool__ (with_cuda clang_object) = true
  /\ bool_y_n.__bool__ (cuda_with_clang clang_object) = true
  /\ @run gpu_lab clang_object fresh
     = (Raise (NotImplementedError "cuda_with_clang=True is not implemented"),
        snd (@run gpu_lab clang_object fresh))
  /\ exists e,
       Raise (NotImplementedError "cuda_with_clang=True is not implemented")
       = @Raise unit e.
Proof.
  split; [reflexivity|]. split; [reflexivity|].
  split; [vm_compute; reflexivity|].
  apply (@run_with_clang_never_returns gpu_lab clang_object fresh
           (Raise (NotImplementedError
                     "cuda_with_clang=True is not implemented"))
           (snd (@run gpu_lab clang_object fresh)));
    vm_compute; reflexivity.
Defined.
